(** * Navix: the environment state-transition engine

    A shallow embedding of
      - [navix/components.py]                (entity records, State, Timestep)
      - [navix/environments/environment.py]  (Environment, step, _step)
      - [navix/environments/room.py]         (Room.reset, fixed corners)
      - [navix/environments/empty.py]        (Room._reset, optional random start)

    Conventions.
      - JAX integer arrays are [int32]: they are integers in [Z] and
        every arithmetic operation on them is wrapped by [wrap32].
      - Python [int] fields of an Environment ([width], [height],
        [max_steps]) are unbounded, hence plain [Z].
      - [float32] scalars are carried by the primitive binary64 floats,
        in which every binary32 value is exactly representable; only the
        literals [0.0] and [1.0] occur in the code modelled here.
      - Code that can raise returns a [result].
      - [jax.lax.cond] and [jax.lax.switch] trace every branch: a branch
        that raises makes the call raise, and so do branches that return
        values of different types.  The type of a value is its [aval]:
        the shapes of its arrays.  The dtypes are those of the fields:
        [t], [action] and [step_type] are [int32] scalars, [reward] is a
        [float32] scalar.
      - A Python [int] that meets an [int32] array is converted to
        [int32], and raises OverflowError when it does not fit. *)

From Stdlib Require Import ZArith Lia PrimFloat.
From stdpp Require Import base list gmap strings.

Open Scope Z_scope.

(** ** Errors and results *)

Inductive Error : Set :=
| InvalidDimension
| NotImplementedError
| EmptyBranchSequence
| OverflowError
| TypeError.

Inductive result (A : Type) : Type :=
| Ok (a : A)
| Err (e : Error).
Arguments Ok {A} a.
Arguments Err {A} e.

#[global] Instance result_ret : MRet result := fun A a => Ok a.

#[global] Instance result_bind : MBind result := fun A B k r =>
  match r with
  | Ok a => k a
  | Err e => Err e
  end.

(** ** Fixed-width integers of JAX arrays *)

Definition int32_min : Z := - 2 ^ 31.
Definition int32_max : Z := 2 ^ 31 - 1.

(** Two's complement reduction to 32 bits. *)
Definition wrap32 (z : Z) : Z := (z + 2 ^ 31) mod 2 ^ 32 - 2 ^ 31.

Definition int32_add (x y : Z) : Z := wrap32 (x + y).

Definition in_int32 (z : Z) : Prop := int32_min <= z <= int32_max.

(** The conversion of a Python [int] to [int32]. *)
Definition int32_of_int (k : Z) : result Z :=
  if (int32_min <=? k) && (k <=? int32_max) then Ok k else Err OverflowError.

(** ** Arrays

    The fields of the records below are JAX arrays of rank 0, 1 or 2. *)

Inductive Array (A : Type) : Type :=
| Scalar (a : A)
| Vec (l : list A)
| Mat (rows : list (list A)).
Arguments Scalar {A} a.
Arguments Vec {A} l.
Arguments Mat {A} rows.

(** The grid of cell ids, one list per row. *)
Abbreviation Grid := (list (list Z)).

(** The id held by the cell of row [r] and column [c], for coordinates
    inside the grid. *)
Definition grid_cell (g : Grid) (r c : Z) : option Z :=
  if (r <? 0) || (c <? 0) then None
  else row ← g !! Z.to_nat r; row !! Z.to_nat c.

(** The id of a floor cell ([0 = floor], as the docstring of
    [Consumable] has it). *)
Definition FLOOR : Z := 0.

(** ** The types of traced values

    When jax traces a function it follows the type of every value, its
    [aval], and not the value itself. *)

Abbreviation Shape := (list nat).

Class Typed (A : Type) : Type := {
  Aval : Type;
  Aval_eq_dec : EqDecision Aval;
  aval : A -> Aval
}.
#[global] Existing Instance Aval_eq_dec.
Arguments Aval A {_}.

Definition Array_shape {A : Type} (a : Array A) : Shape :=
  match a with
  | Scalar _ => []
  | Vec l => [length l]
  | Mat rows => [length rows; length (default [] (head rows))]
  end.

#[global] Instance Array_typed {A : Type} : Typed (Array A) :=
  {| Aval := Shape; aval := Array_shape |}.

Definition Grid_shape (g : Grid) : Shape :=
  [length g; length (default [] (head g))].

#[global] Instance Grid_typed : Typed Grid :=
  {| Aval := Shape; aval := Grid_shape |}.

(** An [int32] scalar. *)
#[global] Instance int32_typed : Typed Z :=
  {| Aval := unit; aval := fun _ => tt |}.

(** A function that jax traces computes the type of its result from the
    type of its argument. *)
Definition traced {A B : Type} `{Typed A} `{Typed B} (f : A -> B) : Prop :=
  forall x y, aval x = aval y -> aval (f x) = aval (f y).

(** ** [jax.lax] control flow *)

(** [jax.lax.cond(pred, true_fun, false_fun, operand)]: both functions are
    traced, [true_fun] first, and have to return values of one type; the
    predicate then selects one of the two results. *)
Definition lax_cond {A B : Type} `{Typed B} (pred : bool)
    (true_fun false_fun : A -> result B) (operand : A) : result B :=
  true_out ← true_fun operand;
  false_out ← false_fun operand;
  if decide (aval true_out = aval false_out)
  then Ok (if pred then true_out else false_out)
  else Err TypeError.

(** [jax.lax.clamp(lo, x, hi)] *)
Definition lax_clamp (lo x hi : Z) : Z := Z.max lo (Z.min x hi).

(** [jax.lax.switch(index, branches, operand)]: an empty sequence of
    branches is rejected and a single branch is called as it is; otherwise
    the index is converted to [int32], every branch is traced, all have to
    return values of one type, and the index, clamped into the range of
    the branches, selects the result. *)
Definition lax_switch {A B : Type} `{Typed B} (index : Z)
    (branches : list (A -> B)) (operand : A) : result B :=
  match branches with
  | [] => Err EmptyBranchSequence
  | [branch] => Ok (branch operand)
  | first :: _ =>
      index ← int32_of_int index;
      if decide (Forall (fun branch =>
                           aval (branch operand) = aval (first operand))
                   branches)
      then Ok (default first
                 (branches !!
                    Z.to_nat (lax_clamp 0 index
                                (Z.of_nat (length branches) - 1)))
                 operand)
      else Err TypeError
  end.

(** ** [components.py] *)

Module components.

Record Component : Type := mkComponent {
  position : Array Z
}.

(** [jnp.zeros((1, 2), dtype=jnp.int32) - 1] *)
Definition Component_position : Array Z := Mat [[-1; -1]].

Record Player : Type := mkPlayer {
  Player_super :> Component;
  direction : Array Z;
  pocket : Array Z
}.

(** [Player(position=p)], the other fields left to their defaults. *)
Definition Player_at (p : Array Z) : Player :=
  {| Player_super := {| position := p |};
     direction := Scalar 0;
     pocket := Scalar 0 |}.

Record Goal : Type := mkGoal {
  Goal_super :> Component;
  probability : Array float
}.

(** [Goal(position=p)]; [probability] defaults to
    [jnp.ones((1,), dtype=jnp.float32)]. *)
Definition Goal_at (p : Array Z) : Goal :=
  {| Goal_super := {| position := p |};
     probability := Vec [1%float] |}.

Record Pickable : Type := mkPickable {
  Pickable_super :> Component;
  id : Array Z
}.

(** [Pickable()] *)
Definition Pickable_default : Pickable :=
  {| Pickable_super := {| position := Component_position |};
     id := Scalar (-1) |}.

Record Consumable : Type := mkConsumable {
  Consumable_super :> Component;
  requires : Array Z;
  replacement : Array float
}.

(** [Consumable()] *)
Definition Consumable_default : Consumable :=
  {| Consumable_super := {| position := Component_position |};
     requires := Vec [-1];
     replacement := Vec [0%float] |}.

Record State (KeyArray : Type) : Type := mkState {
  key : KeyArray;
  grid : Grid;
  player : Player;
  goals : Goal;
  keys : Pickable;
  doors : Consumable
}.
Arguments mkState {KeyArray}.
Arguments key {KeyArray}.
Arguments grid {KeyArray}.
Arguments player {KeyArray}.
Arguments goals {KeyArray}.
Arguments keys {KeyArray}.
Arguments doors {KeyArray}.

Inductive StepType : Set :=
| TRANSITION
| TRUNCATION
| TERMINATION.

(** The values of the [IntEnum]. *)
Definition StepType_value (s : StepType) : Z :=
  match s with
  | TRANSITION => 0
  | TRUNCATION => 1
  | TERMINATION => 2
  end.

(** [state] is the State after the step; the record is generic in it, as
    [empty.py] fills it with the State of [navix/states.py].  [info] is a
    [Dict[str, Any]] whose default is the empty dict. *)
Record Timestep (St Observation Any : Type) : Type := mkTimestep {
  t : Z;
  observation : Observation;
  action : Z;
  reward : float;
  step_type : Z;
  state : St;
  info : gmap string Any
}.
Arguments mkTimestep {St Observation Any}.
Arguments t {St Observation Any}.
Arguments observation {St Observation Any}.
Arguments action {St Observation Any}.
Arguments reward {St Observation Any}.
Arguments step_type {St Observation Any}.
Arguments state {St Observation Any}.
Arguments info {St Observation Any}.

(** The type of a State: the shapes of its arrays, field by field.  All
    keys of the random source have one type. *)
Definition State_aval {KeyArray : Type} (s : State KeyArray) : list Shape :=
  [ Grid_shape (grid s);
    Array_shape (position (player s));
    Array_shape (direction (player s));
    Array_shape (pocket (player s));
    Array_shape (position (goals s));
    Array_shape (probability (goals s));
    Array_shape (position (keys s));
    Array_shape (id (keys s));
    Array_shape (position (doors s));
    Array_shape (requires (doors s));
    Array_shape (replacement (doors s)) ].

#[global] Instance State_typed {KeyArray : Type} : Typed (State KeyArray) :=
  {| Aval := list Shape; aval := State_aval |}.

(** The type of a Timestep: the four scalars have fixed types; what can
    differ are the types of the observation, of the state and of the
    entries of [info]. *)
#[global] Instance Timestep_typed {St Observation Any : Type}
    `{Typed St} `{Typed Observation} `{Typed Any}
    : Typed (Timestep St Observation Any) :=
  {| Aval := Aval Observation * Aval St * list (string * Aval Any);
     aval := fun timestep =>
       (aval (observation timestep), aval (state timestep),
        map_to_list (aval <$> info timestep)) |}.

End components.

(** ** [termination.py] *)

Module termination.
Import components.

(** Modelled from the spec: [check_truncation] of [navix/termination.py],
    which is not part of the sources at hand.  The rule of the
    specification: termination wins, then truncation, else the episode
    continues. *)
Definition check_truncation (terminated truncated : bool) : Z :=
  if terminated then StepType_value TERMINATION
  else if truncated then StepType_value TRUNCATION
  else StepType_value TRANSITION.

End termination.

(** ** [environments/environment.py] *)

Module environment.
Import components termination.

(** The fields of the class.  The State is a parameter of the record:
    [room.py] runs on the State of [components.py], [empty.py] on the one
    of [navix/states.py]. *)
Record Environment (State Observation : Type) : Type := mkEnvironment {
  width : Z;
  height : Z;
  max_steps : Z;
  gamma : float;
  observation_fn : State -> Observation;
  reward_fn : State -> Z -> State -> float;
  termination_fn : State -> Z -> State -> bool
}.
Arguments mkEnvironment {State Observation}.
Arguments width {State Observation}.
Arguments height {State Observation}.
Arguments max_steps {State Observation}.
Arguments gamma {State Observation}.
Arguments observation_fn {State Observation}.
Arguments reward_fn {State Observation}.
Arguments termination_fn {State Observation}.

Section Environment.

(** The random-source token ([jax.random.KeyArray]), the arrays built by
    an observation function and the values of [Timestep.info] are opaque
    to the engine. *)
Context {KeyArray Observation Any : Type}.
Context {Observation_typed : Typed Observation} {Any_typed : Typed Any}.

Abbreviation State := (State KeyArray).
Abbreviation Timestep := (Timestep State Observation Any).
Abbreviation Environment := (Environment State Observation).

(** [reset] is the abstract method of the class: every subclass comes
    with its own. *)
Class EnvironmentClass (E : Type) : Type := {
  super : E -> Environment;
  reset : E -> KeyArray -> result Timestep
}.

(** The base class itself: [raise NotImplementedError()]. *)
#[export] Instance Environment_class : EnvironmentClass Environment := {
  super := fun self => self;
  reset := fun _ _ => Err NotImplementedError
}.

Definition observation (self : Environment) (state : State) : Observation :=
  observation_fn self state.

Definition reward (self : Environment) (state : State) (action : Z)
    (new_state : State) : float :=
  reward_fn self state action new_state.

(** [t >= self.max_steps] compares an [int32] array with a Python int. *)
Definition termination (self : Environment) (prev_state : State) (action : Z)
    (state : State) (t : Z) : result Z :=
  let terminated := termination_fn self prev_state action state in
  max_steps ← int32_of_int (max_steps self);
  let truncated := max_steps <=? t in
  mret (check_truncation terminated truncated).

Section methods.
Context {E : Type} {E_class : EnvironmentClass E}.

(** [actions_set] is the list [actions_set.values()] of the action table,
    in the order of the dict; [action] is a Python int or an [int32]
    scalar. *)

Definition _step (self : E) (timestep : Timestep) (action : Z)
    (actions_set : list (State -> State)) : result Timestep :=
  (* update agents *)
  state ← lax_switch action actions_set (components.state timestep);
  (* build timestep *)
  action_array ← int32_of_int action;
  step_type ←
    termination (super self) (components.state timestep) action state
      (int32_add (t timestep) 1);
  mret {| t := int32_add (t timestep) 1;
          state := state;
          components.action := action_array;
          components.reward :=
            reward (super self) (components.state timestep) action state;
          components.step_type := step_type;
          components.observation := observation (super self) state;
          info := ∅ |}.

Definition step (self : E) (timestep : Timestep) (action : Z)
    (actions_set : list (State -> State)) : result Timestep :=
  (* autoreset if necessary: 0 = transition, 1 = truncation, 2 = termination *)
  let should_reset := 0 <? step_type timestep in
  lax_cond should_reset
    (fun timestep => reset self (key (components.state timestep)))
    (fun timestep => _step self timestep action actions_set)
    timestep.

End methods.

End Environment.

Arguments EnvironmentClass : clear implicits.

End environment.

(** ** [grid.py] *)

Module grid.

Section room.

(** The id held by a wall cell; the specification only says that it is not
    the floor. *)
Variable WALL : Z.

Definition room_cell (height width r c : Z) : Z :=
  if (r =? 0) || (r =? height - 1) || (c =? 0) || (c =? width - 1)
  then WALL else FLOOR.

(** Modelled from the spec: [room] of [navix/grid.py], which is not part
    of the sources at hand.  A grid of [height] rows and [width] columns
    with a border of wall cells, one cell thick, around a floor interior;
    it fails with InvalidDimension when [height] or [width] is below 3. *)
Definition room (height width : Z) : result Grid :=
  if (height <? 3) || (width <? 3) then Err InvalidDimension
  else Ok ((fun r => (fun c => room_cell height width r c) <$> seqZ 0 width)
             <$> seqZ 0 height).

End room.

End grid.

(** ** [environments/room.py] *)

Module environments_room.
Import components environment.

Section Room.

Context {KeyArray Observation Any : Type}.

Abbreviation State := (State KeyArray).
Abbreviation Timestep := (Timestep State Observation Any).
Abbreviation Environment := (Environment State Observation).

(** [jax.random.split(key, num)[i]] *)
Variable random_split : KeyArray -> nat -> nat -> KeyArray.

(** [room] of [navix/grid.py], called with two positional arguments. *)
Variable room : Z -> Z -> result Grid.

Record Room : Type := mkRoom {
  Room_super :> Environment
}.

Definition Room_reset (self : Room) (key : KeyArray) : result Timestep :=
  let '(key, k1, k2) :=
    (random_split key 3 0, random_split key 3 1, random_split key 3 2) in
  (* player *)
  let player := Player_at (Vec [0; 0]) in
  (* goal *)
  let goal := Goal_at (Vec [width self - 1; height self - 1]) in
  (* map *)
  grid ← room (width self) (height self);
  (* systems *)
  let state :=
    {| components.key := key;
       components.grid := grid;
       components.player := player;
       goals := goal;
       keys := Pickable_default;
       doors := Consumable_default |} in
  mret {| t := 0;
          components.observation := observation self state;
          action := 0;
          components.reward := 0%float;
          step_type := 0;
          components.state := state;
          info := ∅ |}.

#[export] Instance Room_class : EnvironmentClass KeyArray Observation Any Room := {
  super := Room_super;
  reset := Room_reset
}.

End Room.

End environments_room.

(** ** [environments/empty.py] *)

Module environments_empty.
Import components environment.

(** Modelled from the spec: the entity records of [navix/entities.py],
    which is not part of the sources at hand.  A Player has a position, a
    direction and a pocket; a Goal a position and a probability. *)
Record Player : Type := mkPlayer {
  Player_position : Array Z;
  Player_direction : Array Z;
  Player_pocket : Array Z
}.

(** Modelled from the spec: the Goal of [navix/entities.py], built by
    [Goal.create(position=.., probability=..)]. *)
Record Goal : Type := mkGoal {
  Goal_position : Array Z;
  Goal_probability : Array float
}.

(** What a batch of the [entities] dict can hold in this file. *)
Inductive Entity : Type :=
| APlayer (p : Player)
| AGoal (g : Goal).

(** Modelled from the spec: the keys of the entity kinds
    ([Entities.PLAYER], [Entities.GOAL]) of [navix/entities.py]. *)
Inductive Entities : Set :=
| PLAYER
| GOAL.

(** [e[None]]: the batch that holds the single instance [e]. *)
Definition batch_of (e : Entity) : list Entity := [e].

(** Modelled from the spec: the State of [navix/states.py], which is not
    part of the sources at hand, with the four fields [empty.py] sets.
    The dict of batches keeps the order in which it is written. *)
Record State (KeyArray RenderingCache : Type) : Type := mkState {
  key : KeyArray;
  grid : Grid;
  cache : RenderingCache;
  entities : list (Entities * list Entity)
}.
Arguments mkState {KeyArray RenderingCache}.
Arguments key {KeyArray RenderingCache}.
Arguments grid {KeyArray RenderingCache}.
Arguments cache {KeyArray RenderingCache}.
Arguments entities {KeyArray RenderingCache}.

Section Room.

Context {KeyArray Observation Any RenderingCache : Type}.

Abbreviation State := (State KeyArray RenderingCache).
Abbreviation Timestep := (Timestep State Observation Any).
Abbreviation Environment := (Environment State Observation).

(** [jax.random.split(key, num)[i]] *)
Variable random_split : KeyArray -> nat -> nat -> KeyArray.

(** [room], [random_positions] and [random_directions] of [navix/grid.py]:
    [room height width] stands for [room(height=.., width=..)], and
    [random_positions(k, grid, n)[i]] is the [i]-th coordinate drawn. *)
Variable room : Z -> Z -> result Grid.
Variable random_positions : KeyArray -> Grid -> nat -> result (nat -> Array Z).
Variable random_directions : KeyArray -> nat -> Array Z.

(** [RenderingCache.init] of [navix/rendering/cache.py] *)
Variable RenderingCache_init : Grid -> RenderingCache.

(** [EMPTY_POCKET_ID] of the components module [empty.py] imports *)
Variable EMPTY_POCKET_ID : Array Z.

Record Room : Type := mkRoom {
  Room_super :> Environment;
  random_start : bool
}.

Definition Room_get_n_unique_states (self : Room) : Z :=
  let n_player_states := (height self - 2) * (width self - 2) * 4 in
  let n_goal_states := (height self - 2) * (width self - 2) in
  (* player and goal or just player *)
  if random_start self then n_player_states * n_goal_states
  else n_player_states.

Definition Room__reset (self : Room) (key : KeyArray)
    (cache : option RenderingCache) : result Timestep :=
  let '(key, k1, k2) :=
    (random_split key 3 0, random_split key 3 1, random_split key 3 2) in
  (* map *)
  grid ← room (height self) (width self);
  (* goal and player *)
  placement ←
    (if random_start self then
       positions ← random_positions k1 grid 2;
       let direction := random_directions k2 1 in
       mret (positions 0%nat, positions 1%nat, direction)
     else
       let goal_pos := Vec [height self - 2; width self - 2] in
       let player_pos := Vec [1; 1] in
       let direction := Scalar 0 in
       mret (player_pos, goal_pos, direction));
  let '(player_pos, goal_pos, direction) := placement in
  let player :=
    {| Player_position := player_pos;
       Player_direction := direction;
       Player_pocket := EMPTY_POCKET_ID |} in
  (* goal *)
  let goal :=
    {| Goal_position := goal_pos; Goal_probability := Scalar 1%float |} in
  let entities :=
    [ (PLAYER, batch_of (APlayer player));
      (GOAL, batch_of (AGoal goal)) ] in
  (* systems *)
  let state :=
    {| key := key;
       grid := grid;
       cache := default (RenderingCache_init grid) cache;
       entities := entities |} in
  mret {| t := 0;
          components.observation := observation_fn self state;
          action := 0;
          components.reward := 0%float;
          step_type := 0;
          components.state := state;
          info := ∅ |}.

End Room.

End environments_empty.

(** ** The grid/entity invariant of the specification

    Written from the words of the specification, to be compared with the
    States the code builds.  A cell of the grid holds the floor (0), the
    wall of the border, or the id of an entity; every cell that holds the
    id of an entity belongs to exactly one live entity of the batches.
    The only link the records of the code offer between a cell and an
    entity is the [position] of the entity; an entity at (-1, -1) is not
    placed. *)

Module invariant.
Import components.









End invariant.

(** ** A concrete instance

    A 5x5 room of [room.py] and one of [empty.py] over integer keys, with
    walls of id -1, the grid as observation and a table of two actions.
    The statements below are run on it. *)

Module example.
Import components environment.

Definition random_split (key : Z) (num i : nat) : Z :=
  key * Z.of_nat num + Z.of_nat i.

Definition WALL : Z := -1.

Definition noop (s : State Z) : State Z := s.

Definition turn (s : State Z) : State Z :=
  {| key := key s;
     grid := grid s;
     player :=
       {| Player_super := Player_super (player s);
          direction := Scalar 1;
          pocket := pocket (player s) |};
     goals := goals s;
     keys := keys s;
     doors := doors s |}.

Definition ACTIONS : list (State Z -> State Z) := [noop; turn].

Definition on_turn (s : State Z) (action : Z) (s' : State Z) : float :=
  if action =? 1 then 1%float else 0%float.

Definition never (s : State Z) (action : Z) (s' : State Z) : bool := false.

Definition Room_5x5 : environments_room.Room (KeyArray := Z) (Observation := Grid) :=
  {| environments_room.Room_super :=
       {| width := 5;
          height := 5;
          max_steps := 100;
          gamma := 1%float;
          observation_fn := grid;
          reward_fn := on_turn;
          termination_fn := never |} |}.

Definition a_state : State Z :=
  {| key := 42;
     grid :=
       [ [-1; -1; -1; -1; -1];
         [-1;  0;  0;  0; -1];
         [-1;  0;  0;  0; -1];
         [-1;  0;  0;  0; -1];
         [-1; -1; -1; -1; -1] ];
     player := Player_at (Vec [1; 1]);
     goals := Goal_at (Vec [3; 3]);
     keys := Pickable_default;
     doors := Consumable_default |}.

Definition a_timestep (t step_type : Z) (info : gmap string Z)
    : Timestep (State Z) Grid Z :=
  {| t := t;
     components.observation := grid a_state;
     action := 1;
     components.reward := 0%float;
     step_type := step_type;
     state := a_state;
     info := info |}.

Definition random_positions (key : Z) (g : Grid) (n : nat)
    : result (nat -> Array Z) :=
  Ok (fun i => Vec [1 + Z.of_nat i; 1]).

Definition random_directions (key : Z) (n : nat) : Array Z := Vec [0].

Definition RenderingCache_init (g : Grid) : unit := tt.

Definition EMPTY_POCKET_ID : Array Z := Scalar (-1).

Definition Empty_5x5 : environments_empty.Room (KeyArray := Z) (Observation := Grid) (RenderingCache := unit) :=
  {| environments_empty.Room_super :=
       {| width := 5;
          height := 5;
          max_steps := 100;
          gamma := 1%float;
          observation_fn := environments_empty.grid;
          reward_fn := fun _ _ _ => 0%float;
          termination_fn := fun _ _ _ => false |};
     environments_empty.random_start := false |}.

End example.

(** ** When the calls of the engine return *)

Module returns.
Import components environment.

Section returns.

Context {KeyArray Observation Any E : Type}.
Context {Observation_typed : Typed Observation} {Any_typed : Typed Any}.
Context {E_class : EnvironmentClass KeyArray Observation Any E}.

(** The functions of the table return States of one type on [s]. *)
Definition uniform (actions_set : list (State KeyArray -> State KeyArray))
    (s : State KeyArray) : Prop :=
  forall f g, f ∈ actions_set -> g ∈ actions_set -> aval (f s) = aval (g s).

(** What [_step] needs to return a Timestep: a table that is not empty and
    whose functions agree on the type of their result, and an action id
    and a [max_steps] that fit in [int32]. *)
Definition _step_returns (self : E)
    (timestep : Timestep (State KeyArray) Observation Any) (action : Z)
    (actions_set : list (State KeyArray -> State KeyArray)) : Prop :=
  actions_set <> []
  /\ in_int32 action
  /\ in_int32 (max_steps (super self))
  /\ uniform actions_set (state timestep).

(** What [step] needs to return a Timestep: both branches of the
    conditional return one, and the two are of one type. *)
Definition step_returns (self : E)
    (timestep : Timestep (State KeyArray) Observation Any) (action : Z)
    (actions_set : list (State KeyArray -> State KeyArray)) : Prop :=
  exists reset_out step_out,
    reset self (key (state timestep)) = Ok reset_out
    /\ _step self timestep action actions_set = Ok step_out
    /\ aval reset_out = aval step_out.

End returns.

End returns.

(** ** Episodes

    A caller holds a Timestep and feeds it back to [step] with the next
    action.  [steps] is that loop over a list of actions; [reachable] are
    the Timesteps such a caller can hold, starting from a [reset]. *)

Module episode.
Import components environment.

Section episode.

Context {KeyArray Observation Any E : Type}.
Context {Observation_typed : Typed Observation} {Any_typed : Typed Any}.
Context {E_class : EnvironmentClass KeyArray Observation Any E}.

Fixpoint steps (self : E)
    (actions_set : list (State KeyArray -> State KeyArray))
    (timestep : Timestep (State KeyArray) Observation Any)
    (actions : list Z)
    : result (Timestep (State KeyArray) Observation Any) :=
  match actions with
  | [] => Ok timestep
  | action :: actions =>
      timestep' ← step self timestep action actions_set;
      steps self actions_set timestep' actions
  end.

Inductive reachable (self : E)
    (actions_set : list (State KeyArray -> State KeyArray))
    : Timestep (State KeyArray) Observation Any -> Prop :=
| reachable_reset key timestep :
    reset self key = Ok timestep ->
    reachable self actions_set timestep
| reachable_step timestep action timestep' :
    reachable self actions_set timestep ->
    step self timestep action actions_set = Ok timestep' ->
    reachable self actions_set timestep'.

End episode.

End episode.

(** ** [jax.numpy] on the arrays of this development

    Integer arrays are [int32]: every operation wraps its result.  [None]
    stands for the exception the operation raises. *)

Module jnp.

(** A Python [int] that meets an [int32] array is converted to [int32];
    one that does not fit raises OverflowError. *)
Definition weak (k : Z) : option Z :=
  if (int32_min <=? k) && (k <=? int32_max) then Some k else None.

Definition map (f : Z -> Z) (a : Array Z) : Array Z :=
  match a with
  | Scalar x => Scalar (f x)
  | Vec l => Vec (fmap (M := list) f l)
  | Mat rows => Mat (fmap (M := list) (fmap (M := list) f) rows)
  end.

(** [a - k], [a * k] and [a + k] for a Python int [k]. *)
Definition sub_int (a : Array Z) (k : Z) : option (Array Z) :=
  k' ← weak k; Some (map (fun x => wrap32 (x - k')) a).

Definition mul_int (a : Array Z) (k : Z) : option (Array Z) :=
  k' ← weak k; Some (map (fun x => wrap32 (x * k')) a).

(** Two rows are combined entry by entry; a row of one entry is stretched
    to the length of the other; other lengths do not broadcast. *)
Definition zip_row (f : Z -> Z -> Z) (l1 l2 : list Z) : option (list Z) :=
  if decide (length l1 = length l2) then Some (zip_with f l1 l2)
  else match l1, l2 with
       | [x], _ => Some (f x <$> l2)
       | _, [y] => Some ((fun x => f x y) <$> l1)
       | _, _ => None
       end.

Definition zip_rows (f : Z -> Z -> Z) (r1 r2 : list (list Z))
    : option (list (list Z)) :=
  if decide (length r1 = length r2)
  then mapM (fun rr => zip_row f rr.1 rr.2) (zip r1 r2)
  else match r1, r2 with
       | [x], _ => mapM (zip_row f x) r2
       | _, [y] => mapM (fun x => zip_row f x y) r1
       | _, _ => None
       end.

(** [a + b] for two arrays, with broadcasting. *)
Definition add (a b : Array Z) : option (Array Z) :=
  let f := fun x y => wrap32 (x + y) in
  match a, b with
  | Scalar x, _ => Some (map (f x) b)
  | _, Scalar y => Some (map (fun x => f x y) a)
  | Vec l1, Vec l2 => Vec <$> zip_row f l1 l2
  | Vec l, Mat rows => Mat <$> mapM (zip_row f l) rows
  | Mat rows, Vec l => Mat <$> mapM (fun r => zip_row f r l) rows
  | Mat r1, Mat r2 => Mat <$> zip_rows f r1 r2
  end.

(** [a[i]] for a Python int [i >= 0]: a scalar has no axis to index; an
    index beyond the axis is clamped to its last entry. *)
Definition getitem (a : Array Z) (i : nat) : option (Array Z) :=
  match a with
  | Scalar _ => None
  | Vec l => Scalar <$> l !! (i `min` (length l - 1))%nat
  | Mat rows => Vec <$> rows !! (i `min` (length rows - 1))%nat
  end.

(** [jnp.expand_dims(a, -1)]; arrays of rank 3 are not represented. *)
Definition expand_dims_last (a : Array Z) : option (Array Z) :=
  match a with
  | Scalar x => Some (Vec [x])
  | Vec l => Some (Mat (fmap (M := list) (fun x => [x]) l))
  | Mat _ => None
  end.

(** [grid.shape], for a grid of at least one row. *)
Definition shape (g : Grid) : Z * Z :=
  (Z.of_nat (length g), Z.of_nat (length (default [] (head g)))).

(** The entries of an array, row by row. *)
Definition entries (a : Array Z) : list Z :=
  match a with
  | Scalar x => [x]
  | Vec l => l
  | Mat rows => concat rows
  end.

End jnp.

(** ** [environments/empty.py]: the id of an observation *)

Module unique_id_obs.
Import components environment.

Section unique_id.

Context {KeyArray Observation RenderingCache : Type}.

Abbreviation State := (environments_empty.State KeyArray RenderingCache).
Abbreviation Room := (environments_empty.Room (KeyArray := KeyArray) (Observation := Observation) (RenderingCache := RenderingCache)).

(** [State.get_player] and [State.get_entity] of [navix/states.py]: the
    Player, and the batch of an entity kind, whose arrays have one more
    leading axis. *)
Variable get_player : State -> environments_empty.Player.
Variable get_entity : State -> string -> environments_empty.Goal.

(** The function returned by [Room.get_unique_id_obs_fn]. *)
Definition unique_id (self : Room) (state : State) : option (Array Z) :=
  (* hardcoded for the non-random empty room environment *)
  let '(full_width, full_height) := jnp.shape (environments_empty.grid state) in
  let '(width, height) := (full_width - 2, full_height - 2) in
  let n_player_states := width * height * 4 in
  let n_free_spaces := width * height in
  if environments_empty.random_start self then
    let goal := get_entity state "goal" in
    (* assuming only one goal *)
    g_position ← jnp.getitem (environments_empty.Goal_position goal) 0;
    g0 ← jnp.getitem g_position 0;
    g1 ← jnp.getitem g_position 1;
    g0' ← jnp.sub_int g0 1;
    g0'' ← jnp.mul_int g0' height;
    g1' ← jnp.sub_int g1 1;
    g_index ← jnp.add g0'' g1';
    let player := get_player state in
    let p_position := environments_empty.Player_position player in
    let p_direction := environments_empty.Player_direction player in
    p0 ← jnp.getitem p_position 0;
    p1 ← jnp.getitem p_position 1;
    p0' ← jnp.sub_int p0 1;
    p0'' ← jnp.mul_int p0' height;
    p1' ← jnp.sub_int p1 1;
    p_index ← jnp.add p0'' p1';
    p_index4 ← jnp.mul_int p_index 4;
    p_index ← jnp.add p_index4 p_direction;
    g_scaled ← jnp.mul_int g_index n_player_states;
    unique_id ← jnp.add g_scaled p_index;
    jnp.expand_dims_last unique_id
  else
    let player := get_player state in
    let position := environments_empty.Player_position player in
    let direction := environments_empty.Player_direction player in
    p0 ← jnp.getitem position 0;
    p1 ← jnp.getitem position 1;
    p0' ← jnp.sub_int p0 1;
    p0'' ← jnp.mul_int p0' height;
    p1' ← jnp.sub_int p1 1;
    index ← jnp.add p0'' p1';
    index4 ← jnp.mul_int index 4;
    unique_id ← jnp.add index4 direction;
    jnp.expand_dims_last unique_id.

End unique_id.

End unique_id_obs.

(** ** Concrete States for the id of an observation *)

Module example_obs.

(** A State of [empty.py] on the 5x5 room with the Player on [(r, c)],
    looking in direction [d], and the Goal on [(gr, gc)]. *)
Definition a_state (r c d gr gc : Z) : environments_empty.State Z unit :=
  {| environments_empty.key := 0;
     environments_empty.grid :=
       [ [-1; -1; -1; -1; -1];
         [-1;  0;  0;  0; -1];
         [-1;  0;  0;  0; -1];
         [-1;  0;  0;  0; -1];
         [-1; -1; -1; -1; -1] ];
     environments_empty.cache := tt;
     environments_empty.entities :=
       [ (environments_empty.PLAYER,
          [environments_empty.APlayer
             {| environments_empty.Player_position := Vec [r; c];
                environments_empty.Player_direction := Scalar d;
                environments_empty.Player_pocket := Scalar (-1) |}]);
         (environments_empty.GOAL,
          [environments_empty.AGoal
             {| environments_empty.Goal_position := Vec [gr; gc];
                environments_empty.Goal_probability := Scalar 1%float |}]) ] |}.

Definition nobody : environments_empty.Player :=
  {| environments_empty.Player_position := Vec [-1; -1];
     environments_empty.Player_direction := Scalar 0;
     environments_empty.Player_pocket := Scalar (-1) |}.

(** The first Player of the batch of Players. *)
Definition get_player (s : environments_empty.State Z unit)
    : environments_empty.Player :=
  match environments_empty.entities s with
  | (environments_empty.PLAYER, environments_empty.APlayer p :: _) :: _ => p
  | _ => nobody
  end.

(** The Goals as one batch: their positions, one per row. *)
Definition get_entity (s : environments_empty.State Z unit) (name : string)
    : environments_empty.Goal :=
  {| environments_empty.Goal_position :=
       Mat (omap (fun e =>
                    match e with
                    | environments_empty.AGoal g =>
                        match environments_empty.Goal_position g with
                        | Vec row => Some row
                        | _ => None
                        end
                    | _ => None
                    end)
              (batch ← environments_empty.entities s; batch.2));
     environments_empty.Goal_probability := Vec [1%float] |}.

Definition Random_5x5 : environments_empty.Room (KeyArray := Z) (Observation := Grid) (RenderingCache := unit) :=
  {| environments_empty.Room_super :=
       environments_empty.Room_super example.Empty_5x5;
     environments_empty.random_start := true |}.

End example_obs.

(** * Properties *)

Import components termination environment.

(** ** Fixed-width arithmetic *)

Lemma wrap32_in_range (z : Z) : in_int32 z -> wrap32 z = z.
Proof.
  unfold in_int32, int32_min, int32_max, wrap32. intros Hz.
  rewrite Z.mod_small; lia.
Qed.

Lemma wrap32_bounds (z : Z) : in_int32 (wrap32 z).
Proof.
  unfold in_int32, int32_min, int32_max, wrap32.
  pose proof (Z.mod_pos_bound (z + 2 ^ 31) (2 ^ 32)). lia.
Qed.

Lemma int32_add_no_overflow (x : Z) :
  int32_min <= x < int32_max -> int32_add x 1 = x + 1.
Proof.
  intros Hx. apply wrap32_in_range.
  unfold in_int32, int32_min, int32_max in *. lia.
Qed.

Lemma int32_add_overflow : int32_add int32_max 1 = int32_min.
Proof. reflexivity. Qed.

Lemma int32_of_int_in_range (k : Z) : in_int32 k -> int32_of_int k = Ok k.
Proof.
  unfold in_int32, int32_of_int. intros [Hlo Hhi].
  by rewrite (proj2 (Z.leb_le _ _) Hlo), (proj2 (Z.leb_le _ _) Hhi).
Qed.

Lemma int32_of_int_Ok (k k' : Z) :
  int32_of_int k = Ok k' -> k' = k /\ in_int32 k.
Proof.
  unfold in_int32, int32_of_int.
  destruct (int32_min <=? k) eqn:Hlo, (k <=? int32_max) eqn:Hhi; cbn;
    intros [= <-]. split; [done|]. split; by apply Z.leb_le.
Qed.

Lemma int32_of_int_Err (k : Z) (e : Error) :
  int32_of_int k = Err e -> e = OverflowError /\ ~ in_int32 k.
Proof.
  intros Herr. destruct (decide (in_int32 k)) as [Hin|Hout].
  - by rewrite int32_of_int_in_range in Herr.
  - split; [|done]. unfold int32_of_int in Herr.
    destruct (_ && _); [done|]. by injection Herr as <-.
Qed.

(** ** Branch selection *)

Section switch.

Context {A B : Type} `{Typed B}.
Implicit Types (branches : list (A -> B)) (operand : A).

Lemma lax_clamp_in_range (lo x hi : Z) : lo <= x <= hi -> lax_clamp lo x hi = x.
Proof. unfold lax_clamp. lia. Qed.

Lemma lax_clamp_bounds (lo x hi : Z) :
  lo <= hi -> lo <= lax_clamp lo x hi <= hi.
Proof. unfold lax_clamp. lia. Qed.

(** What a call that returns has done. *)
Lemma lax_switch_Ok index branches operand out :
  lax_switch index branches operand = Ok out ->
  exists branch,
    branches !!
      Z.to_nat (lax_clamp 0 index (Z.of_nat (length branches) - 1))
      = Some branch
    /\ out = branch operand
    /\ (length branches = 1%nat \/ in_int32 index)
    /\ (forall f g, f ∈ branches -> g ∈ branches ->
        aval (f operand) = aval (g operand)).
Proof.
  unfold lax_switch.
  destruct branches as [|first [|second rest]]; [done| |].
  - intros [= <-]. exists first. split.
    { replace (Z.to_nat _) with 0%nat; [done|]. unfold lax_clamp. cbn. lia. }
    split; [done|]. split; [by left|].
    intros f g Hf%list_elem_of_singleton Hg%list_elem_of_singleton.
    by subst.
  - destruct (int32_of_int index) as [index'|e] eqn:Hindex;
      cbn [mbind result_bind]; [|done].
    apply int32_of_int_Ok in Hindex as [-> Hin].
    case_decide as Hall; [|done]. intros [= <-].
    cbn [length] in *.
    destruct (lookup_lt_is_Some_2 (first :: second :: rest)
                (Z.to_nat (lax_clamp 0 index
                             (Z.of_nat (S (S (length rest))) - 1))))
      as [branch Hlook].
    { pose proof (lax_clamp_bounds 0 index
                    (Z.of_nat (S (S (length rest))) - 1)).
      cbn [length]. lia. }
    exists branch. rewrite Hlook. split; [done|]. split; [done|].
    split; [by right|].
    rewrite Forall_forall in Hall. intros f g Hf Hg.
    by rewrite (Hall f Hf), (Hall g Hg).
Qed.

(** When a call returns. *)
Lemma lax_switch_returns index branches operand :
  branches <> [] ->
  in_int32 index ->
  (forall f g, f ∈ branches -> g ∈ branches ->
     aval (f operand) = aval (g operand)) ->
  exists out, lax_switch index branches operand = Ok out.
Proof.
  intros Hne Hin Huniform. unfold lax_switch.
  destruct branches as [|first [|second rest]]; [done|by eexists|].
  rewrite int32_of_int_in_range by done. cbn [mbind result_bind].
  rewrite decide_True; [by eexists|].
  apply Forall_forall. intros f Hf. apply Huniform; [done|].
  apply list_elem_of_here.
Qed.

Lemma lax_switch_Err index branches operand e :
  lax_switch index branches operand = Err e ->
  branches = []
  \/ ~ in_int32 index
  \/ ~ (forall f g, f ∈ branches -> g ∈ branches ->
          aval (f operand) = aval (g operand)).
Proof.
  intros Herr.
  destruct (decide (branches = [])) as [|Hne]; [by left|right].
  destruct (decide (in_int32 index)) as [Hin|]; [right|by left].
  intros Huniform.
  destruct (lax_switch_returns index branches operand Hne Hin Huniform)
    as [out Hout].
  congruence.
Qed.

End switch.

(** ** The step of any environment *)

Section step_properties.

Context {KeyArray Observation Any E : Type}.
Context {Observation_typed : Typed Observation} {Any_typed : Typed Any}.
Context {E_class : EnvironmentClass KeyArray Observation Any E}.

Implicit Types (self : E) (action : Z).
Implicit Types (timestep : Timestep (State KeyArray) Observation Any).
Implicit Types (actions_set : list (State KeyArray -> State KeyArray)).

Lemma termination_in_range (env : Environment (State KeyArray) Observation)
    prev_state action state t :
  in_int32 (max_steps env) ->
  termination env prev_state action state t =
    Ok (check_truncation (termination_fn env prev_state action state)
          (max_steps env <=? t)).
Proof.
  intros Hin. unfold termination. by rewrite int32_of_int_in_range.
Qed.

Lemma termination_Ok (env : Environment (State KeyArray) Observation)
    prev_state action state t step_type :
  termination env prev_state action state t = Ok step_type ->
  in_int32 (max_steps env)
  /\ step_type =
       check_truncation (termination_fn env prev_state action state)
         (max_steps env <=? t).
Proof.
  unfold termination.
  destruct (int32_of_int (max_steps env)) as [m|e] eqn:Hmax;
    cbn [mbind result_bind]; [|done].
  apply int32_of_int_Ok in Hmax as [-> Hin]. by intros [= <-].
Qed.

Lemma termination_Err (env : Environment (State KeyArray) Observation)
    prev_state action state t e :
  termination env prev_state action state t = Err e ->
  e = OverflowError /\ ~ in_int32 (max_steps env).
Proof.
  unfold termination.
  destruct (int32_of_int (max_steps env)) as [m|e'] eqn:Hmax;
    cbn [mbind result_bind]; [done|].
  intros [= <-]. by apply int32_of_int_Err in Hmax.
Qed.

(** What a call of [_step] that returns has done. *)
Lemma _step_inv self timestep action actions_set timestep' :
  _step self timestep action actions_set = Ok timestep' ->
  exists branch,
    actions_set !!
      Z.to_nat (lax_clamp 0 action (Z.of_nat (length actions_set) - 1))
      = Some branch
    /\ returns._step_returns self timestep action actions_set
    /\ timestep' =
         {| t := int32_add (t timestep) 1;
            state := branch (state timestep);
            components.action := action;
            components.reward :=
              reward_fn (super self) (state timestep) action
                (branch (state timestep));
            step_type :=
              check_truncation
                (termination_fn (super self) (state timestep) action
                   (branch (state timestep)))
                (max_steps (super self) <=? int32_add (t timestep) 1);
            components.observation :=
              observation_fn (super self) (branch (state timestep));
            info := ∅ |}.
Proof.
  unfold _step.
  destruct (lax_switch _ _ _) as [s'|e] eqn:Hswitch;
    cbn [mbind result_bind]; [|done].
  apply lax_switch_Ok in Hswitch as (branch & Hlook & -> & _ & Huniform).
  destruct (int32_of_int action) as [a'|e] eqn:Haction;
    cbn [mbind result_bind]; [|done].
  apply int32_of_int_Ok in Haction as [-> Hin].
  destruct (termination _ _ _ _ _) as [st|e] eqn:Hterm;
    cbn [mbind result_bind]; [|done].
  apply termination_Ok in Hterm as [Hmax ->].
  intros [= <-]. exists branch. split; [done|]. split; [|done].
  split; [by intros ->|]. done.
Qed.

Lemma _step_returns_Ok self timestep action actions_set :
  returns._step_returns self timestep action actions_set ->
  exists timestep', _step self timestep action actions_set = Ok timestep'.
Proof.
  intros (Hne & Hin & Hmax & Huniform). unfold _step.
  destruct (lax_switch_returns action actions_set (state timestep)
              Hne Hin Huniform) as [s' ->].
  cbn [mbind result_bind]. rewrite int32_of_int_in_range by done.
  cbn [mbind result_bind]. rewrite termination_in_range by done.
  by eexists.
Qed.

Lemma _step_Ok_returns self timestep action actions_set timestep' :
  _step self timestep action actions_set = Ok timestep' ->
  returns._step_returns self timestep action actions_set.
Proof.
  intros Hok. by apply _step_inv in Hok as (_ & _ & ? & _).
Qed.

Lemma _step_Err self timestep action actions_set e :
  _step self timestep action actions_set = Err e ->
  ~ returns._step_returns self timestep action actions_set.
Proof.
  intros Herr Hreturns.
  apply _step_returns_Ok in Hreturns as [ts' Hok]. congruence.
Qed.

(** [_step] reads neither the observation, nor the action, nor the reward,
    nor the step type, nor the info of the Timestep it is given. *)
Lemma _step_reads self timestep1 timestep2 action actions_set :
  t timestep1 = t timestep2 ->
  state timestep1 = state timestep2 ->
  _step self timestep1 action actions_set =
    _step self timestep2 action actions_set.
Proof. intros Ht Hstate. unfold _step. by rewrite Ht, Hstate. Qed.

(** What a call of [step] that returns has done. *)
Lemma step_Ok_inv self timestep action actions_set timestep' :
  step self timestep action actions_set = Ok timestep' ->
  exists reset_out step_out,
    reset self (key (state timestep)) = Ok reset_out
    /\ _step self timestep action actions_set = Ok step_out
    /\ aval reset_out = aval step_out
    /\ timestep' =
         if 0 <? step_type timestep then reset_out else step_out.
Proof.
  unfold step, lax_cond.
  destruct (reset self _) as [r|e]; cbn [mbind result_bind]; [|done].
  destruct (_step self _ _ _) as [s|e]; cbn [mbind result_bind]; [|done].
  case_decide as Htype; [|done]. intros [= <-]. by exists r, s.
Qed.

Lemma step_returns_Ok self timestep action actions_set :
  returns.step_returns self timestep action actions_set ->
  step self timestep action actions_set =
    if 0 <? step_type timestep
    then reset self (key (state timestep))
    else _step self timestep action actions_set.
Proof.
  intros (r & s & Hreset & Hstep & Htype). unfold step, lax_cond.
  rewrite Hreset, Hstep. cbn [mbind result_bind].
  rewrite decide_True by done. by destruct (0 <? _).
Qed.

Lemma step_Ok_returns self timestep action actions_set timestep' :
  step self timestep action actions_set = Ok timestep' ->
  returns.step_returns self timestep action actions_set.
Proof.
  intros (r & s & Hreset & Hstep & Htype & _)%step_Ok_inv. by exists r, s.
Qed.

Lemma step_Err self timestep action actions_set e :
  step self timestep action actions_set = Err e ->
  ~ returns.step_returns self timestep action actions_set.
Proof.
  intros Herr Hreturns. pose proof (step_returns_Ok _ _ _ _ Hreturns) as Hok.
  destruct Hreturns as (r & s & Hreset & Hstep & _).
  rewrite Hreset, Hstep in Hok. destruct (0 <? _); congruence.
Qed.

(** A Timestep that closed its episode is answered by a reset from the
    key it carries. *)
Lemma step_ended self timestep action actions_set timestep' :
  0 < step_type timestep ->
  step self timestep action actions_set = Ok timestep' ->
  reset self (key (state timestep)) = Ok timestep'.
Proof.
  intros Hended (r & s & Hreset & _ & _ & ->)%step_Ok_inv.
  by rewrite (proj2 (Z.ltb_lt _ _) Hended).
Qed.

(** Otherwise the step is the one of [_step]. *)
Lemma step_running self timestep action actions_set timestep' :
  step_type timestep <= 0 ->
  step self timestep action actions_set = Ok timestep' ->
  _step self timestep action actions_set = Ok timestep'.
Proof.
  intros Hrunning (r & s & _ & Hstep & _ & ->)%step_Ok_inv.
  by rewrite (proj2 (Z.ltb_ge _ _) Hrunning).
Qed.

End step_properties.

(** ** The Room of [room.py] under [step] *)

Section Room_step.
Import environments_room.

Context {KeyArray Observation Any : Type}.
Context {Observation_typed : Typed Observation} {Any_typed : Typed Any}.
Variable random_split : KeyArray -> nat -> nat -> KeyArray.
Variable room : Z -> Z -> result Grid.

Abbreviation Room_step := (step (E_class := Room_class random_split room)).
Abbreviation Room__step := (_step (E_class := Room_class random_split room)).

Implicit Types (self : Room (KeyArray := KeyArray) (Observation := Observation)).
Implicit Types (timestep : Timestep (State KeyArray) Observation Any).
Implicit Types (actions_set : list (State KeyArray -> State KeyArray)).

Lemma Room_reset_inv self key timestep :
  Room_reset (Any := Any) random_split room self key = Ok timestep ->
  exists grid,
    room (width self) (height self) = Ok grid /\
    timestep =
      {| t := 0;
         components.observation :=
           observation_fn self
             {| components.key := random_split key 3 0;
                components.grid := grid;
                player := Player_at (Vec [0; 0]);
                goals := Goal_at (Vec [width self - 1; height self - 1]);
                keys := Pickable_default;
                doors := Consumable_default |};
         action := 0;
         components.reward := 0%float;
         step_type := 0;
         state :=
           {| components.key := random_split key 3 0;
              components.grid := grid;
              player := Player_at (Vec [0; 0]);
              goals := Goal_at (Vec [width self - 1; height self - 1]);
              keys := Pickable_default;
              doors := Consumable_default |};
         info := ∅ |}.
Proof.
  unfold Room_reset.
  destruct (room _ _) as [g|e]; cbn; [|done].
  intros [= <-]. by eexists.
Qed.

Lemma Room_reset_fails self key e :
  Room_reset (Any := Any) random_split room self key = Err e <-> room (width self) (height self) = Err e.
Proof.
  unfold Room_reset.
  destruct (room _ _) as [g|e']; cbn; [done|]. split; congruence.
Qed.


End Room_step.


(** ** The running branch of [step] *)

Section running_step.

Context {KeyArray Observation Any E : Type}.
Context {Observation_typed : Typed Observation} {Any_typed : Typed Any}.
Context {E_class : EnvironmentClass KeyArray Observation Any E}.

Implicit Types (self : E) (action : Z).
Implicit Types (timestep : Timestep (State KeyArray) Observation Any).
Implicit Types (actions_set : list (State KeyArray -> State KeyArray)).

Lemma check_truncation_priority (truncated : bool) :
  check_truncation true truncated = StepType_value TERMINATION.
Proof. reflexivity. Qed.

(** C2: the step type of a step is TERMINATION when the termination
    function holds on (old state, action, new state), else TRUNCATION when
    the step index [old.t + 1] has reached [max_steps], else TRANSITION;
    with both at once it is TERMINATION.  The method [termination] applies
    the same rule to the index it is given, and raises OverflowError when
    [max_steps] does not fit in [int32]; [_step] returns exactly under the
    conditions of [_step_returns]. *)
Theorem termination_rule self timestep action actions_set :
  (forall prev_state state t,
     match termination (super self) prev_state action state t with
     | Ok step_type =>
         step_type =
           StepType_value
             (if termination_fn (super self) prev_state action state
              then TERMINATION
              else if max_steps (super self) <=? t then TRUNCATION
              else TRANSITION)
     | Err e => e = OverflowError /\ ~ in_int32 (max_steps (super self))
     end)
  /\ (forall terminated truncated : bool,
        check_truncation terminated truncated =
        StepType_value
          (if terminated then TERMINATION
           else if truncated then TRUNCATION else TRANSITION))
  /\ check_truncation true true = StepType_value TERMINATION
  /\ match _step self timestep action actions_set with
     | Ok timestep' =>
         let terminated :=
           termination_fn (super self) (state timestep) action
             (state timestep') in
         let truncated :=
           max_steps (super self) <=? int32_add (t timestep) 1 in
         step_type timestep' =
           StepType_value
             (if terminated then TERMINATION
              else if truncated then TRUNCATION else TRANSITION)
         /\ (if terminated && truncated
             then step_type timestep' = StepType_value TERMINATION
             else True)
         /\ (if decide (int32_min <= t timestep < int32_max)
             then truncated = (max_steps (super self) <=? t timestep + 1)
             else True)
     | Err _ => ~ returns._step_returns self timestep action actions_set
     end.
Proof.
  split; [|split; [|split]].
  - intros prev_state state t.
    destruct (termination _ _ _ _ _) as [st|e] eqn:Hterm.
    + apply termination_Ok in Hterm as [_ ->]. unfold check_truncation.
      by repeat case_match.
    + by apply termination_Err in Hterm.
  - intros terminated truncated. unfold check_truncation.
    by repeat case_match.
  - reflexivity.
  - destruct (_step self timestep action actions_set) as [ts'|e] eqn:Hstep.
    + apply _step_inv in Hstep as (branch & _ & _ & ->). cbn.
      unfold check_truncation. split; [|split].
      * by repeat case_match.
      * destruct (termination_fn _ _ _ _); cbn; [|done]. by case_match.
      * case_decide as Hrange; [|done].
        by rewrite int32_add_no_overflow.
    + by eapply _step_Err.
Qed.

(** C3: on a TRANSITION Timestep and an action id [a] within the table,
    the Timestep that [step] returns has as state the [a]-th action applied
    to the old state, as [t] the old [t] plus one (in the 32-bit arithmetic
    of the counter, which is the successor below [int32_max]), as action
    [a], as reward [reward_fn] on (old state, [a], new state) and as
    observation [observation_fn] on the new state.  The call returns
    exactly when both branches of the conditional return Timesteps of one
    type. *)
Theorem step_transition self timestep a actions_set :
  step_type timestep = StepType_value TRANSITION ->
  0 <= a < Z.of_nat (length actions_set) ->
  exists branch,
    actions_set !! Z.to_nat a = Some branch
    /\ match step self timestep a actions_set with
       | Ok timestep' =>
           state timestep' = branch (state timestep)
           /\ t timestep' = int32_add (t timestep) 1
           /\ (int32_min <= t timestep < int32_max ->
               t timestep' = t timestep + 1)
           /\ components.action timestep' = a
           /\ components.reward timestep' =
                reward_fn (super self) (state timestep) a (state timestep')
           /\ components.observation timestep' =
                observation_fn (super self) (state timestep')
       | Err _ => ~ returns.step_returns self timestep a actions_set
       end.
Proof.
  intros Htype [Hlo Hhi].
  destruct (lookup_lt_is_Some_2 actions_set (Z.to_nat a)) as [branch Hlook];
    [lia|].
  exists branch. split; [done|].
  destruct (step self timestep a actions_set) as [ts'|e] eqn:Hstep.
  - apply step_running in Hstep; [|by rewrite Htype].
    apply _step_inv in Hstep as (branch' & Hlook' & _ & ->).
    rewrite lax_clamp_in_range in Hlook' by lia.
    assert (branch' = branch) as -> by congruence. cbn.
    repeat split; try done. apply int32_add_no_overflow.
  - by eapply step_Err.
Qed.

(** C9: the Timestep built by the running branch of [step] carries an
    empty [info], whatever the [info] of the Timestep it was given, which
    is not read: neither what is returned nor whether the call returns
    depends on it. *)
Theorem step_info_empty self timestep action actions_set
    (info' : gmap string Any) :
  let given :=
    {| t := t timestep;
       components.observation := components.observation timestep;
       components.action := components.action timestep;
       components.reward := components.reward timestep;
       step_type := step_type timestep;
       state := state timestep;
       info := info' |} in
  _step self given action actions_set = _step self timestep action actions_set
  /\ step self given action actions_set = step self timestep action actions_set
  /\ match _step self given action actions_set with
     | Ok timestep' => info timestep' = ∅
     | Err _ => ~ returns._step_returns self timestep action actions_set
     end
  /\ (if decide (step_type timestep = StepType_value TRANSITION)
      then match step self given action actions_set with
           | Ok timestep' => info timestep' = ∅
           | Err _ => ~ returns.step_returns self timestep action actions_set
           end
      else True).
Proof.
  intros given.
  assert (_step self given action actions_set =
          _step self timestep action actions_set) as H_step by done.
  assert (step self given action actions_set =
          step self timestep action actions_set) as Hstep by done.
  split; [done|]. split; [done|]. split.
  - rewrite H_step.
    destruct (_step self timestep action actions_set) as [ts'|e] eqn:Hrun.
    + by apply _step_inv in Hrun as (branch & _ & _ & ->).
    + by eapply _step_Err.
  - case_decide as Htype; [|done]. rewrite Hstep.
    destruct (step self timestep action actions_set) as [ts'|e] eqn:Hrun.
    + apply step_running in Hrun; [|by rewrite Htype].
      by apply _step_inv in Hrun as (branch & _ & _ & ->).
    + by eapply step_Err.
Qed.

End running_step.

(** ** The grid of a room *)

Section room_grid.

Variable WALL : Z.

Lemma room_ok (height width : Z) :
  3 <= height -> 3 <= width ->
  grid.room WALL height width =
    Ok ((fun r => (fun c => grid.room_cell WALL height width r c)
                    <$> seqZ 0 width) <$> seqZ 0 height).
Proof.
  intros Hh Hw. unfold grid.room.
  rewrite (proj2 (Z.ltb_ge height 3)), (proj2 (Z.ltb_ge width 3)) by lia.
  reflexivity.
Qed.

Lemma room_grid_cell (height width r c : Z) (g : Grid) :
  grid.room WALL height width = Ok g ->
  0 <= r < height -> 0 <= c < width ->
  grid_cell g r c = Some (grid.room_cell WALL height width r c).
Proof.
  unfold grid.room. case_match; [done|]. intros [= <-] Hr Hc.
  unfold grid_cell.
  rewrite (proj2 (Z.ltb_ge r 0)), (proj2 (Z.ltb_ge c 0)) by lia. cbn.
  rewrite list_lookup_fmap, lookup_seqZ_lt by lia. cbn.
  rewrite list_lookup_fmap, lookup_seqZ_lt by lia. cbn.
  do 2 f_equal; lia.
Qed.

Lemma room_grid_shape (height width : Z) (g : Grid) :
  grid.room WALL height width = Ok g ->
  length g = Z.to_nat height /\
  Forall (fun row => length row = Z.to_nat width) g.
Proof.
  unfold grid.room. case_match; [done|]. intros [= <-]. split.
  - by rewrite length_fmap, length_seqZ.
  - apply Forall_fmap, Forall_forall. intros r _. cbn.
    by rewrite length_fmap, length_seqZ.
Qed.

Lemma room_cell_border (height width r c : Z) :
  r = 0 \/ r = height - 1 \/ c = 0 \/ c = width - 1 ->
  grid.room_cell WALL height width r c = WALL.
Proof.
  intros Hborder. unfold grid.room_cell.
  destruct (r =? 0) eqn:?, (r =? height - 1) eqn:?,
    (c =? 0) eqn:?, (c =? width - 1) eqn:?; cbn; try done; lia.
Qed.

Lemma room_cell_interior (height width r c : Z) :
  0 < r < height - 1 -> 0 < c < width - 1 ->
  grid.room_cell WALL height width r c = FLOOR.
Proof.
  intros Hr Hc. unfold grid.room_cell.
  destruct (r =? 0) eqn:?, (r =? height - 1) eqn:?,
    (c =? 0) eqn:?, (c =? width - 1) eqn:?; cbn; try done; lia.
Qed.

(** C8: [room] is a function of its two arguments; it fails, with
    InvalidDimension and nothing else, exactly when [height < 3] or
    [width < 3]; from 3 on it returns a grid of [height] rows of [width]
    cells whose border cells hold the wall and whose interior cells are
    floor. *)
Theorem room_dimensions (height width : Z) :
  (grid.room WALL height width = Err InvalidDimension <->
     height < 3 \/ width < 3)
  /\ (forall e, grid.room WALL height width = Err e -> e = InvalidDimension)
  /\ (3 <= height -> 3 <= width ->
      exists g,
        grid.room WALL height width = Ok g
        /\ length g = Z.to_nat height
        /\ Forall (fun row => length row = Z.to_nat width) g
        /\ (forall r c,
              0 <= r < height -> 0 <= c < width ->
              r = 0 \/ r = height - 1 \/ c = 0 \/ c = width - 1 ->
              grid_cell g r c = Some WALL)
        /\ (forall r c,
              0 < r < height - 1 -> 0 < c < width - 1 ->
              grid_cell g r c = Some FLOOR)).
Proof.
  split; [|split].
  - unfold grid.room.
    destruct (height <? 3) eqn:Hh, (width <? 3) eqn:Hw; cbn;
      (split; [try done|try done; lia]); intros _; lia.
  - unfold grid.room. case_match; [|done]. by intros e [= <-].
  - intros Hh Hw. eexists. split; [by apply room_ok|].
    pose proof (room_ok height width Hh Hw) as Hroom.
    destruct (room_grid_shape _ _ _ Hroom) as [Hlen Hrows].
    split; [done|]. split; [done|]. split.
    + intros r c Hr Hc Hborder.
      rewrite (room_grid_cell _ _ _ _ _ Hroom) by done.
      by rewrite room_cell_border.
    + intros r c Hr Hc.
      rewrite (room_grid_cell _ _ _ _ _ Hroom) by lia.
      by rewrite room_cell_interior.
Qed.

End room_grid.

(** ** Reset *)

Section reset_properties.

Context {KeyArray Observation Any RenderingCache : Type}.
Variable random_split : KeyArray -> nat -> nat -> KeyArray.
Variable room : Z -> Z -> result Grid.
Variable random_positions : KeyArray -> Grid -> nat -> result (nat -> Array Z).
Variable random_directions : KeyArray -> nat -> Array Z.
Variable RenderingCache_init : Grid -> RenderingCache.
Variable EMPTY_POCKET_ID : Array Z.

Abbreviation Room := (environments_room.Room (KeyArray := KeyArray) (Observation := Observation)).
Abbreviation Room_reset :=
  (environments_room.Room_reset (Any := Any) random_split room).
Abbreviation Room_super := environments_room.Room_super.

Abbreviation Empty := (environments_empty.Room (KeyArray := KeyArray) (Observation := Observation) (RenderingCache := RenderingCache)).
Abbreviation Empty__reset :=
  (environments_empty.Room__reset (Any := Any) random_split room
     random_positions random_directions RenderingCache_init EMPTY_POCKET_ID).
Abbreviation Empty_super := environments_empty.Room_super.

(** The Timestep [Room._reset] of [empty.py] returns. *)
Lemma Empty__reset_inv (self : Empty) key cache timestep :
  Empty__reset self key cache = Ok timestep ->
  exists grid player_pos goal_pos direction,
    room (height (Empty_super self)) (width (Empty_super self)) = Ok grid
    /\ (if environments_empty.random_start self
        then exists positions,
               random_positions (random_split key 3 1) grid 2 = Ok positions
               /\ player_pos = positions 0%nat
               /\ goal_pos = positions 1%nat
               /\ direction = random_directions (random_split key 3 2) 1
        else player_pos = Vec [1; 1]
             /\ goal_pos = Vec [height (Empty_super self) - 2;
                                width (Empty_super self) - 2]
             /\ direction = Scalar 0)
    /\ t timestep = 0
    /\ components.action timestep = 0
    /\ components.reward timestep = 0%float
    /\ step_type timestep = 0
    /\ info timestep = ∅
    /\ components.observation timestep =
         observation_fn (Empty_super self) (state timestep)
    /\ state timestep =
         {| environments_empty.key := random_split key 3 0;
            environments_empty.grid := grid;
            environments_empty.cache :=
              default (RenderingCache_init grid) cache;
            environments_empty.entities :=
              [ (environments_empty.PLAYER,
                 [environments_empty.APlayer
                    {| environments_empty.Player_position := player_pos;
                       environments_empty.Player_direction := direction;
                       environments_empty.Player_pocket := EMPTY_POCKET_ID |}]);
                (environments_empty.GOAL,
                 [environments_empty.AGoal
                    {| environments_empty.Goal_position := goal_pos;
                       environments_empty.Goal_probability :=
                         Scalar 1%float |}]) ] |}.
Proof.
  unfold environments_empty.Room__reset.
  destruct (room _ _) as [g|e]; cbn; [|done].
  destruct (environments_empty.random_start self) eqn:Hstart; cbn.
  - destruct (random_positions _ _ _) as [ps|e] eqn:Hpos; cbn; [|done].
    intros [= <-]. exists g. do 3 eexists. split; [done|].
    split; [by exists ps|]. done.
  - intros [= <-]. exists g. do 3 eexists. done.
Qed.

Lemma Empty__reset_fails (self : Empty) key cache e :
  Empty__reset self key cache = Err e ->
  room (height (Empty_super self)) (width (Empty_super self)) = Err e
  \/ (environments_empty.random_start self = true
      /\ exists grid,
           room (height (Empty_super self)) (width (Empty_super self)) = Ok grid
           /\ random_positions (random_split key 3 1) grid 2 = Err e).
Proof.
  unfold environments_empty.Room__reset.
  destruct (room _ _) as [g|e']; cbn; [|intros [= <-]; by left].
  destruct (environments_empty.random_start self) eqn:Hstart; cbn; [|done].
  destruct (random_positions _ _ _) as [ps|e'] eqn:Hpos; cbn; [done|].
  intros [= <-]. right. split; [done|]. by exists g.
Qed.

Lemma Empty__reset_fixed_total (self : Empty) key cache grid :
  environments_empty.random_start self = false ->
  room (height (Empty_super self)) (width (Empty_super self)) = Ok grid ->
  exists timestep, Empty__reset self key cache = Ok timestep.
Proof.
  intros Hstart Hroom. unfold environments_empty.Room__reset.
  rewrite Hroom, Hstart. cbn. by eexists.
Qed.

(** C7: whatever the seed token, the Timestep returned by [reset] (of
    [room.py]) and by [_reset] (of [empty.py]) has [t = 0], the sentinel
    action 0, reward 0.0 and step type TRANSITION; no Timestep is
    returned only when the grid, or the random placement, cannot be
    built. *)
Theorem reset_initial_timestep (self : Room) (self' : Empty) key cache :
  match Room_reset self key with
  | Ok timestep =>
      t timestep = 0
      /\ components.action timestep = 0
      /\ components.reward timestep = 0%float
      /\ step_type timestep = StepType_value TRANSITION
  | Err e => room (width (Room_super self)) (height (Room_super self)) = Err e
  end
  /\ match Empty__reset self' key cache with
     | Ok timestep =>
         t timestep = 0
         /\ components.action timestep = 0
         /\ components.reward timestep = 0%float
         /\ step_type timestep = StepType_value TRANSITION
     | Err e =>
         room (height (Empty_super self')) (width (Empty_super self')) = Err e
         \/ (environments_empty.random_start self' = true
             /\ exists grid,
                  room (height (Empty_super self'))
                    (width (Empty_super self')) = Ok grid
                  /\ random_positions (random_split key 3 1) grid 2 = Err e)
     end.
Proof.
  split.
  - destruct (Room_reset self key) as [ts|e] eqn:Hreset.
    + by apply Room_reset_inv in Hreset as (g & _ & ->).
    + by apply Room_reset_fails in Hreset.
  - destruct (Empty__reset self' key cache) as [ts|e] eqn:Hreset.
    + apply Empty__reset_inv in Hreset
        as (g & pp & gp & d & _ & _ & Ht & Ha & Hr & Hs & _).
      by rewrite Ht, Ha, Hr, Hs.
    + by apply Empty__reset_fails in Hreset.
Qed.

End reset_properties.

(** ** The seed token in [room.py] *)

Section Room_seed.

Context {KeyArray Observation Any : Type}.
Variable random_split : KeyArray -> nat -> nat -> KeyArray.
Variable room : Z -> Z -> result Grid.

Abbreviation Room := (environments_room.Room (KeyArray := KeyArray) (Observation := Observation)).
Abbreviation Room_reset := (environments_room.Room_reset (Any := Any)).
Abbreviation Room_super := environments_room.Room_super.

(** C10: in [room.py] the placement does not depend on the seed token.  Two
    resets of one environment from any two tokens fail together or return
    States with the same grid, player, goals (and keys and doors): only the
    stored key, the first of the three tokens split from the seed, can
    differ.  The two other tokens are not read: replacing them changes
    nothing. *)
Theorem Room_reset_seed_independent (self : Room) (key1 key2 : KeyArray)
    (other_split : KeyArray -> nat -> nat -> KeyArray) :
  match Room_reset random_split room self key1,
        Room_reset random_split room self key2 with
  | Ok timestep1, Ok timestep2 =>
      grid (state timestep1) = grid (state timestep2)
      /\ player (state timestep1) = player (state timestep2)
      /\ goals (state timestep1) = goals (state timestep2)
      /\ keys (state timestep1) = keys (state timestep2)
      /\ doors (state timestep1) = doors (state timestep2)
      /\ key (state timestep1) = random_split key1 3 0
      /\ key (state timestep2) = random_split key2 3 0
  | Err e1, Err e2 => e1 = e2
  | _, _ => False
  end
  /\ Room_reset
       (fun key num i =>
          match i with
          | O => random_split key num i
          | _ => other_split key num i
          end) room self key1 =
     Room_reset random_split room self key1.
Proof.
  split; [|reflexivity].
  unfold environments_room.Room_reset.
  destruct (room _ _) as [g|e]; cbn; done.
Qed.

End Room_seed.

(** ** Where the Player and the Goal are placed *)

Section placement.

Context {KeyArray Observation Any RenderingCache : Type}.
Variable random_split : KeyArray -> nat -> nat -> KeyArray.
Variable WALL : Z.
Variable random_positions : KeyArray -> Grid -> nat -> result (nat -> Array Z).
Variable random_directions : KeyArray -> nat -> Array Z.
Variable RenderingCache_init : Grid -> RenderingCache.
Variable EMPTY_POCKET_ID : Array Z.

Abbreviation Room := (environments_room.Room (KeyArray := KeyArray) (Observation := Observation)).
Abbreviation Room_super := environments_room.Room_super.
Abbreviation Empty := (environments_empty.Room (KeyArray := KeyArray) (Observation := Observation) (RenderingCache := RenderingCache)).
Abbreviation Empty_super := environments_empty.Room_super.

(** [empty.py], fixed start: the Player stands on the interior cell (1, 1),
    the Goal on the interior cell (height - 2, width - 2), and the grid is
    the room of [height] rows and [width] columns. *)
Lemma Empty__reset_placement (self : Empty) key cache :
  environments_empty.random_start self = false ->
  3 <= height (Empty_super self) -> 3 <= width (Empty_super self) ->
  exists timestep grid,
    environments_empty.Room__reset (Any := Any) random_split (grid.room WALL)
      random_positions random_directions RenderingCache_init EMPTY_POCKET_ID
      self key cache = Ok timestep
    /\ grid.room WALL (height (Empty_super self)) (width (Empty_super self))
       = Ok grid
    /\ environments_empty.grid (state timestep) = grid
    /\ environments_empty.entities (state timestep) =
         [ (environments_empty.PLAYER,
            [environments_empty.APlayer
               {| environments_empty.Player_position := Vec [1; 1];
                  environments_empty.Player_direction := Scalar 0;
                  environments_empty.Player_pocket := EMPTY_POCKET_ID |}]);
           (environments_empty.GOAL,
            [environments_empty.AGoal
               {| environments_empty.Goal_position :=
                    Vec [height (Empty_super self) - 2;
                         width (Empty_super self) - 2];
                  environments_empty.Goal_probability := Scalar 1%float |}]) ]
    /\ grid_cell grid 1 1 = Some FLOOR
    /\ grid_cell grid (height (Empty_super self) - 2)
         (width (Empty_super self) - 2) = Some FLOOR.
Proof.
  intros Hstart Hh Hw.
  destruct (grid.room WALL (height (Empty_super self))
              (width (Empty_super self))) as [g0|e] eqn:Hroom;
    [|by rewrite room_ok in Hroom].
  destruct (Empty__reset_fixed_total (Any := Any) random_split (grid.room WALL)
              random_positions random_directions RenderingCache_init
              EMPTY_POCKET_ID self key cache _ Hstart Hroom) as [ts Hts].
  exists ts, g0. split; [exact Hts|]. split; [done|].
  apply Empty__reset_inv in Hts
    as (g & pp & gp & d & Hg & Hplace & _ & _ & _ & _ & _ & _ & ->).
  rewrite Hstart in Hplace. destruct Hplace as (-> & -> & ->).
  rewrite Hroom in Hg. injection Hg as <-.
  cbn [environments_empty.grid environments_empty.entities].
  split; [done|]. split; [done|].
  rewrite !(room_grid_cell _ _ _ _ _ _ Hroom) by lia.
  by rewrite !room_cell_interior by lia.
Qed.


End placement.

(** C4, on [room.py]: the reset of a 5x5 Room puts the Player on (0, 0)
    and the Goal on (4, 4), two corners of the wall border, where the
    cells (1, 1) and (3, 3) are asked for (and are the ones chosen by
    [empty.py], see [Empty__reset_placement]). *)
Theorem Room_reset_5x5_corners (key : Z) :
  exists timestep,
    environments_room.Room_reset (Any := Z) example.random_split
      (grid.room example.WALL) example.Room_5x5 key = Ok timestep
    /\ position (player (state timestep)) = Vec [0; 0]
    /\ position (goals (state timestep)) = Vec [4; 4]
    /\ position (player (state timestep)) <> Vec [1; 1]
    /\ position (goals (state timestep)) <> Vec [3; 3]
    /\ grid_cell (grid (state timestep)) 0 0 = Some example.WALL
    /\ grid_cell (grid (state timestep)) 4 4 = Some example.WALL
    /\ grid_cell (grid (state timestep)) 1 1 = Some FLOOR
    /\ grid_cell (grid (state timestep)) 3 3 = Some FLOOR.
Proof. eexists. split; [reflexivity|]. cbn. by repeat split. Qed.

(** The same run on [empty.py]. *)
Lemma Empty__reset_5x5_interior (key : Z) :
  exists timestep,
    environments_empty.Room__reset (Any := Z) example.random_split
      (grid.room example.WALL) example.random_positions
      example.random_directions example.RenderingCache_init
      example.EMPTY_POCKET_ID example.Empty_5x5 key None = Ok timestep
    /\ environments_empty.entities (state timestep) =
         [ (environments_empty.PLAYER,
            [environments_empty.APlayer
               {| environments_empty.Player_position := Vec [1; 1];
                  environments_empty.Player_direction := Scalar 0;
                  environments_empty.Player_pocket :=
                    example.EMPTY_POCKET_ID |}]);
           (environments_empty.GOAL,
            [environments_empty.AGoal
               {| environments_empty.Goal_position := Vec [3; 3];
                  environments_empty.Goal_probability := Scalar 1%float |}]) ].
Proof. eexists. split; reflexivity. Qed.


Lemma step_transition_witness :
  step_type (example.a_timestep 3 0 ∅) = StepType_value TRANSITION
  /\ 0 <= 1 < Z.of_nat (length example.ACTIONS)
  /\ exists timestep',
       step (E_class := environments_room.Room_class example.random_split
                          (grid.room example.WALL))
         example.Room_5x5 (example.a_timestep 3 0 ∅) 1 example.ACTIONS
       = Ok timestep'
       /\ state timestep' = example.turn example.a_state
       /\ t timestep' = 4
       /\ components.action timestep' = 1
       /\ components.reward timestep' = 1%float.
Proof.
  split; [reflexivity|]. split; [cbn; lia|].
  destruct (step_transition
              (E_class := environments_room.Room_class example.random_split
                            (grid.room example.WALL))
              example.Room_5x5 (example.a_timestep 3 0 ∅) 1 example.ACTIONS)
    as (branch & Hbranch & Hstep).
  - reflexivity.
  - cbn; lia.
  - injection Hbranch as <-.
    destruct (step _ _ _ _) as [ts'|e] eqn:Hrun.
    + destruct Hstep as (Hstate & Ht & _ & Ha & Hr & _).
      exists ts'. split; [reflexivity|]. split; [exact Hstate|].
      split; [exact Ht|]. split; [exact Ha|]. rewrite Hr, Hstate. reflexivity.
    + vm_compute in Hrun. discriminate Hrun.
Defined.

(** ** The grid against the entities *)

Section grid_and_entities.

Context {KeyArray Observation Any RenderingCache : Type}.
Context {Observation_typed : Typed Observation} {Any_typed : Typed Any}.
Variable random_split : KeyArray -> nat -> nat -> KeyArray.
Variable WALL : Z.
Variable random_positions : KeyArray -> Grid -> nat -> result (nat -> Array Z).
Variable random_directions : KeyArray -> nat -> Array Z.
Variable RenderingCache_init : Grid -> RenderingCache.
Variable EMPTY_POCKET_ID : Array Z.

Abbreviation Room := (environments_room.Room (KeyArray := KeyArray) (Observation := Observation)).
Abbreviation Room_super := environments_room.Room_super.
Abbreviation Room_class :=
  (environments_room.Room_class (Any := Any) random_split (grid.room WALL)).
Abbreviation Empty := (environments_empty.Room (KeyArray := KeyArray) (Observation := Observation) (RenderingCache := RenderingCache)).
Abbreviation Empty_super := environments_empty.Room_super.




End grid_and_entities.


Lemma room_dimensions_witness :
  grid.room example.WALL 5 5 =
    Ok [ [-1; -1; -1; -1; -1];
         [-1;  0;  0;  0; -1];
         [-1;  0;  0;  0; -1];
         [-1;  0;  0;  0; -1];
         [-1; -1; -1; -1; -1] ]
  /\ grid.room example.WALL 2 7 = Err InvalidDimension.
Proof.
  split; [reflexivity|].
  apply (proj1 (room_dimensions example.WALL 2 7)). left. lia.
Defined.

(** * Further properties of the engine *)

(** ** Actions outside the table, and what [step] reads *)

Section step_reads.

Context {KeyArray Observation Any E : Type}.
Context {Observation_typed : Typed Observation} {Any_typed : Typed Any}.
Context {E_class : EnvironmentClass KeyArray Observation Any E}.

Implicit Types (self : E) (action : Z).
Implicit Types (timestep : Timestep (State KeyArray) Observation Any).
Implicit Types (actions_set : list (State KeyArray -> State KeyArray)).

(** X1: an action id outside the table, as long as it fits in [int32], is
    not an error: whenever [_step] can return, it runs the first function
    for an id below 0 and the last one for an id past the end, and it is
    the id as given, not the clamped one, that is recorded in the Timestep
    and handed to the reward function. *)
Theorem _step_clamps_action self timestep action actions_set :
  returns._step_returns self timestep action actions_set ->
  exists branch timestep',
    actions_set !!
      Z.to_nat (lax_clamp 0 action (Z.of_nat (length actions_set) - 1))
      = Some branch
    /\ _step self timestep action actions_set = Ok timestep'
    /\ state timestep' = branch (state timestep)
    /\ components.action timestep' = action
    /\ components.reward timestep' =
         reward_fn (super self) (state timestep) action (state timestep')
    /\ (action < 0 -> head actions_set = Some branch)
    /\ (Z.of_nat (length actions_set) <= action ->
        last actions_set = Some branch).
Proof.
  intros Hreturns.
  destruct (_step_returns_Ok _ _ _ _ Hreturns) as [ts' Hstep].
  pose proof Hstep as Hinv.
  apply _step_inv in Hinv as (branch & Hlook & _ & ->).
  exists branch. eexists. split; [exact Hlook|]. split; [exact Hstep|].
  cbn. split; [done|]. split; [done|]. split; [done|]. split.
  - intros Hneg. rewrite head_lookup. rewrite <- Hlook. f_equal.
    unfold lax_clamp. lia.
  - intros Hpast. rewrite last_lookup. rewrite <- Hlook. f_equal.
    unfold lax_clamp. destruct actions_set; [done|]. cbn [length] in *. lia.
Qed.

(** X2: [step] reads three fields of the Timestep it is given,
    [step_type], [t] and [state]: two Timesteps that agree on them give
    the same result, a Timestep or an error, whatever their observation,
    action, reward and info.  Once the episode has ended, neither [t], nor
    the action, nor the table shows in the Timestep that is returned. *)
Theorem step_reads_three_fields self timestep1 timestep2 action actions_set :
  step_type timestep1 = step_type timestep2 ->
  t timestep1 = t timestep2 ->
  state timestep1 = state timestep2 ->
  step self timestep1 action actions_set =
    step self timestep2 action actions_set
  /\ (0 < step_type timestep1 ->
      forall t' action' actions_set' timestep1' timestep2',
        step self timestep1 action actions_set = Ok timestep1' ->
        step self
          {| t := t';
             components.observation := components.observation timestep2;
             components.action := components.action timestep2;
             components.reward := components.reward timestep2;
             step_type := step_type timestep2;
             state := state timestep2;
             info := info timestep2 |}
          action' actions_set' = Ok timestep2' ->
        timestep1' = timestep2').
Proof.
  intros Htype Ht Hstate. split.
  - unfold step, lax_cond. rewrite Htype, Hstate.
    by rewrite (_step_reads self timestep1 timestep2).
  - intros Hended t' action' actions_set' ts1 ts2 Hstep1 Hstep2.
    apply step_ended in Hstep1; [|done].
    apply step_ended in Hstep2; [|cbn; lia]. cbn in Hstep2.
    rewrite Hstate in Hstep1. congruence.
Qed.

End step_reads.

(** The two actions of the concrete instance keep the type of a State
    whose direction is a scalar. *)
Lemma example_ACTIONS_keep_types f (s : State Z) :
  f ∈ example.ACTIONS ->
  Array_shape (direction (player s)) = [] ->
  aval (f s) = aval s.
Proof.
  unfold example.ACTIONS.
  intros [->|[->|Hf%elem_of_nil]%elem_of_cons]%elem_of_cons Hdir;
    [done| |done].
  cbn. unfold State_aval. cbn. by rewrite Hdir.
Qed.

Lemma example_ACTIONS_uniform (s : State Z) :
  Array_shape (direction (player s)) = [] ->
  returns.uniform example.ACTIONS s.
Proof.
  intros Hdir f g Hf Hg. by rewrite !example_ACTIONS_keep_types.
Qed.

Lemma _step_clamps_action_witness :
  exists timestep',
    _step (E_class := environments_room.Room_class example.random_split
                        (grid.room example.WALL))
      example.Room_5x5 (example.a_timestep 3 0 ∅) 7 example.ACTIONS
    = Ok timestep'
    /\ state timestep' = example.turn example.a_state
    /\ components.action timestep' = 7.
Proof.
  destruct (_step_clamps_action
              (E_class := environments_room.Room_class example.random_split
                            (grid.room example.WALL))
              example.Room_5x5 (example.a_timestep 3 0 ∅) 7 example.ACTIONS)
    as (branch & ts' & Hbranch & Hstep & Hstate & Ha & _).
  - split; [discriminate|]. split; [vm_compute; split; discriminate|].
    split; [vm_compute; split; discriminate|].
    by apply example_ACTIONS_uniform.
  - exists ts'. injection Hbranch as <-. by repeat split.
Defined.

Lemma step_reads_three_fields_witness :
  step (E_class := environments_room.Room_class example.random_split
                     (grid.room example.WALL))
    example.Room_5x5 (example.a_timestep 3 0 ∅) 1 example.ACTIONS =
  step (E_class := environments_room.Room_class example.random_split
                     (grid.room example.WALL))
    example.Room_5x5 (example.a_timestep 3 0 {[ "seen" := 5 ]}) 1
    example.ACTIONS.
Proof.
  refine (proj1 (step_reads_three_fields
                   (E_class := environments_room.Room_class
                                 example.random_split (grid.room example.WALL))
                   example.Room_5x5 (example.a_timestep 3 0 ∅)
                   (example.a_timestep 3 0 {[ "seen" := 5 ]}) 1
                   example.ACTIONS _ _ _));
    reflexivity.
Defined.

(** ** Episodes of the Room of [room.py] *)

Section Room_episode.
Import environments_room.

Context {KeyArray Observation Any : Type}.
Context {Observation_typed : Typed Observation} {Any_typed : Typed Any}.
Variable random_split : KeyArray -> nat -> nat -> KeyArray.
Variable room : Z -> Z -> result Grid.

Abbreviation Room_class := (Room_class (Any := Any) random_split room).
Abbreviation Room_step := (step (E_class := Room_class)).
Abbreviation Room_steps := (episode.steps (E_class := Room_class)).
Abbreviation Room_reachable := (episode.reachable (E_class := Room_class)).

Implicit Types (self : Room (KeyArray := KeyArray) (Observation := Observation)).
Implicit Types (timestep : Timestep (State KeyArray) Observation Any).
Implicit Types (actions_set : list (State KeyArray -> State KeyArray)).

Lemma check_truncation_range (terminated truncated : bool) :
  0 <= check_truncation terminated truncated <= 2.
Proof. by destruct terminated, truncated. Qed.

Lemma check_truncation_running (terminated truncated : bool) :
  check_truncation terminated truncated = 0 <->
  terminated = false /\ truncated = false.
Proof. destruct terminated, truncated; cbn; split; try done; intros []; done. Qed.

(** A running step below [int32_max]. *)
Lemma Room_step_running_inv self timestep action actions_set timestep' :
  step_type timestep = 0 ->
  int32_min <= t timestep < int32_max ->
  Room_step self timestep action actions_set = Ok timestep' ->
  t timestep' = t timestep + 1
  /\ step_type timestep' =
       check_truncation
         (termination_fn self (state timestep) action (state timestep'))
         (max_steps self <=? t timestep + 1)
  /\ in_int32 (max_steps self)
  /\ exists branch, branch ∈ actions_set
                    /\ state timestep' = branch (state timestep).
Proof.
  intros Htype Hrange Hstep.
  apply step_running in Hstep; [|lia].
  apply _step_inv in Hstep as (branch & Hlook & (_ & _ & Hmax & _) & ->).
  cbn. rewrite int32_add_no_overflow by done.
  split; [done|]. split; [done|]. split; [done|].
  exists branch. split; [|done]. by eapply list_elem_of_lookup_2.
Qed.

Abbreviation episode_invariant self timestep :=
  (0 <= t timestep <= Z.max 1 (max_steps self)
   /\ 0 <= step_type timestep <= 2
   /\ (step_type timestep = 0 ->
       t timestep = 0 \/ t timestep < max_steps self)).

Lemma reset_episode_invariant self key timestep :
  Room_reset (Any := Any) random_split room self key = Ok timestep ->
  episode_invariant self timestep.
Proof.
  intros Hreset. apply Room_reset_inv in Hreset as (g & _ & ->).
  cbn. lia.
Qed.

Lemma reachable_episode_invariant self actions_set timestep :
  Room_reachable self actions_set timestep ->
  episode_invariant self timestep.
Proof.
  intros Hreach.
  induction Hreach as [key ts Hreset|ts a ts' Hreach IH Hstep].
  - exact (reset_episode_invariant _ _ _ Hreset).
  - destruct IH as (Ht & Htype & Hrun).
    destruct (decide (0 < step_type ts)) as [Hended|Hrunning].
    + apply step_ended in Hstep; [|done].
      exact (reset_episode_invariant _ _ _ Hstep).
    + assert (step_type ts = 0) as Hzero by lia.
      specialize (Hrun Hzero).
      pose proof (step_Ok_returns _ _ _ _ _ Hstep)
        as (_ & s & _ & Hs & _).
      apply _step_Ok_returns in Hs as (_ & _ & Hmax & _).
      change (in_int32 (max_steps self)) in Hmax.
      assert (int32_min <= t ts < int32_max) as Hrange.
      { unfold in_int32, int32_min, int32_max in *. lia. }
      destruct (Room_step_running_inv _ _ _ _ _ Hzero Hrange Hstep)
        as (Ht' & Htype' & _).
      rewrite Ht', Htype'.
      split; [lia|]. split; [apply check_truncation_range|].
      intros Hrun'. apply check_truncation_running in Hrun' as [_ Hrun'].
      apply Z.leb_gt in Hrun'. lia.
Qed.

(** X3: on every Timestep a caller can hold (a reset, followed by any
    number of steps with any actions), the counter is within
    [0, max(1, max_steps)], the step type is 0, 1 or 2, and a running
    Timestep has [t < max_steps] (or is the reset itself); so the 32-bit
    counter never wraps: a step from a running Timestep returns exactly
    [t + 1]. *)
Theorem reachable_counter_bounded self actions_set timestep :
  episode.reachable (E_class := Room_class) self actions_set timestep ->
  0 <= t timestep <= Z.max 1 (max_steps self)
  /\ 0 <= step_type timestep <= 2
  /\ (step_type timestep = 0 ->
      t timestep = 0 \/ t timestep < max_steps self)
  /\ (forall action timestep',
        step_type timestep = 0 ->
        step (E_class := Room_class) self timestep action actions_set
          = Ok timestep' ->
        t timestep' = t timestep + 1).
Proof.
  intros Hreach.
  destruct (reachable_episode_invariant _ _ _ Hreach) as (Ht & Htype & Hrun).
  repeat split; try lia; try done.
  intros a ts' Hzero Hstep. specialize (Hrun Hzero).
  pose proof (step_Ok_returns _ _ _ _ _ Hstep) as (_ & s & _ & Hs & _).
  apply _step_Ok_returns in Hs as (_ & _ & Hmax & _).
  change (in_int32 (max_steps self)) in Hmax.
  eapply Room_step_running_inv; [done| |done].
  unfold in_int32, int32_min, int32_max in *. lia.
Qed.

Lemma steps_app self actions_set timestep (actions1 actions2 : list Z) :
  Room_steps self actions_set timestep (actions1 ++ actions2) =
    timestep' ← Room_steps self actions_set timestep actions1;
    Room_steps self actions_set timestep' actions2.
Proof.
  revert timestep.
  induction actions1 as [|a actions1 IH]; intros ts; [done|].
  cbn [app episode.steps].
  destruct (Room_step self ts a actions_set) as [ts'|e];
    cbn [mbind result_bind]; [apply IH|done].
Qed.

(** Two resets of one environment return Timesteps of one type. *)
Lemma Room_reset_aval self key1 key2 timestep1 timestep2 :
  traced (observation_fn self) ->
  Room_reset (Any := Any) random_split room self key1 = Ok timestep1 ->
  Room_reset (Any := Any) random_split room self key2 = Ok timestep2 ->
  aval timestep1 = aval timestep2
  /\ aval (state timestep1) = aval (state timestep2).
Proof.
  intros Hobs Hreset1 Hreset2.
  apply Room_reset_inv in Hreset1 as (g1 & Hroom1 & ->).
  apply Room_reset_inv in Hreset2 as (g2 & Hroom2 & ->).
  assert (g2 = g1) as -> by congruence.
  split; [|done]. cbn. do 2 f_equal. by apply Hobs.
Qed.

(** When a step from a State of the type of the reset returns. *)
Lemma Room_step_returns self actions_set key0 timestep0 timestep action :
  in_int32 (max_steps self) ->
  actions_set <> [] ->
  (forall f s, f ∈ actions_set -> aval s = aval (state timestep0) ->
               aval (f s) = aval s) ->
  traced (observation_fn self) ->
  Room_reset (Any := Any) random_split room self key0 = Ok timestep0 ->
  aval (state timestep) = aval (state timestep0) ->
  in_int32 action ->
  returns.step_returns (E_class := Room_class) self timestep action
    actions_set.
Proof.
  intros Hmax Hne Hact Hobs Hreset0 Htype Hin.
  pose proof Hreset0 as Hroom.
  apply Room_reset_inv in Hroom as (g & Hroom & _).
  assert (exists r, Room_reset (Any := Any) random_split room self
                      (key (state timestep)) = Ok r) as [r Hr].
  { unfold Room_reset. rewrite Hroom. by eexists. }
  destruct (Room_reset_aval _ _ _ _ _ Hobs Hr Hreset0) as [_ Hrs].
  assert (returns._step_returns (E_class := Room_class) self timestep action
            actions_set) as Hreturns.
  { split; [done|]. split; [done|]. split; [done|].
    intros f1 f2 Hf1 Hf2. by rewrite !Hact. }
  destruct (_step_returns_Ok _ _ _ _ Hreturns) as [s Hs].
  exists r, s. split; [exact Hr|]. split; [exact Hs|].
  apply _step_inv in Hs as (branch & Hlook & _ & ->).
  apply list_elem_of_lookup_2 in Hlook.
  pose proof (Hact branch _ Hlook Htype) as Hbranch.
  assert (aval (state r) = aval (branch (state timestep))) as Hst
    by (by rewrite Hbranch, Htype).
  apply Room_reset_inv in Hr as (g' & _ & ->).
  pose proof (Hobs _ _ Hst) as Hobs'.
  cbn in Hst, Hobs' |- *. by rewrite Hobs', Hst.
Qed.

(** While the counter stays below [max_steps] and nothing terminates, the
    episode goes on. *)
Lemma steps_running self actions_set key0 timestep0 timestep
    (actions : list Z) :
  in_int32 (max_steps self) ->
  (forall s a s', termination_fn self s a s' = false) ->
  actions_set <> [] ->
  (forall f s, f ∈ actions_set -> aval s = aval (state timestep0) ->
               aval (f s) = aval s) ->
  traced (observation_fn self) ->
  Room_reset (Any := Any) random_split room self key0 = Ok timestep0 ->
  Forall in_int32 actions ->
  aval (state timestep) = aval (state timestep0) ->
  step_type timestep = 0 ->
  0 <= t timestep ->
  actions = [] \/ t timestep + Z.of_nat (length actions) < max_steps self ->
  exists timestep',
    Room_steps self actions_set timestep actions = Ok timestep'
    /\ t timestep' = t timestep + Z.of_nat (length actions)
    /\ step_type timestep' = 0
    /\ aval (state timestep') = aval (state timestep0).
Proof.
  intros Hmax Hnever Hne Hact Hobs Hreset0 Hactions. revert timestep.
  induction Hactions as [|a actions Ha Hactions IH];
    intros ts Haval Htype Ht Hlen.
  - exists ts. cbn. split; [done|]. split; [lia|done].
  - destruct Hlen as [|Hlen]; [done|]. cbn [length] in Hlen.
    pose proof (Room_step_returns self actions_set key0 timestep0 ts a
                  Hmax Hne Hact Hobs Hreset0 Haval Ha) as Hreturns.
    pose proof Hreturns as (r & s & _ & Hs & _).
    assert (Room_step self ts a actions_set = Ok s) as Hstep.
    { rewrite (step_returns_Ok _ _ _ _ Hreturns), Htype. exact Hs. }
    assert (int32_min <= t ts < int32_max) as Hrange.
    { unfold in_int32, int32_min, int32_max in *. lia. }
    destruct (Room_step_running_inv _ _ _ _ _ Htype Hrange Hstep)
      as (Ht1 & Htype1 & _ & branch & Hbranch & Hstate1).
    rewrite Hnever in Htype1.
    rewrite (proj2 (Z.leb_gt _ _)) in Htype1 by lia. cbn in Htype1.
    destruct (IH s) as (ts' & Hsteps & Ht' & Htype' & Haval').
    + rewrite Hstate1, Hact; done.
    + done.
    + lia.
    + destruct actions; [by left|right]. cbn [length] in *. lia.
    + exists ts'. cbn [episode.steps]. rewrite Hstep.
      cbn [mbind result_bind].
      split; [done|]. split; [|done]. cbn [length]. lia.
Qed.

(** Without a table of actions no step returns. *)
Lemma steps_need_action_table self timestep action (actions : list Z)
    timestep' :
  Room_steps self [] timestep (action :: actions) <> Ok timestep'.
Proof.
  cbn [episode.steps].
  destruct (Room_step self timestep action []) as [ts1|e] eqn:Hstep;
    [|done].
  apply step_Ok_returns in Hstep as (_ & s & _ & Hs & _).
  by apply _step_Ok_returns in Hs as (Hne & _).
Qed.

(** X4: when nothing terminates it, an episode lasts [max(1, max_steps)]
    steps: from a reset, the Timestep after [n] steps has [t = n]; it is a
    TRANSITION as long as [n] is below that length and a TRUNCATION when
    [n] reaches it, and the step after the truncation is a reset from the
    key of the last state, with [t = 0] again.  For the steps to return,
    [max_steps] and the action ids fit in [int32], the table is not empty,
    its functions keep the type of the State, and the observation function
    is traced. *)
Theorem episode_length self actions_set key timestep0 (actions : list Z) :
  in_int32 (max_steps self) ->
  (forall s a s', termination_fn self s a s' = false) ->
  actions_set <> [] ->
  (forall f s, f ∈ actions_set -> aval s = aval (state timestep0) ->
               aval (f s) = aval s) ->
  traced (observation_fn self) ->
  Forall in_int32 actions ->
  Room_reset (Any := Any) random_split room self key = Ok timestep0 ->
  Z.of_nat (length actions) <= Z.max 1 (max_steps self) ->
  exists timestep,
    Room_steps self actions_set timestep0 actions = Ok timestep
    /\ t timestep = Z.of_nat (length actions)
    /\ step_type timestep =
         StepType_value
           (if Z.of_nat (length actions) <? Z.max 1 (max_steps self)
            then TRANSITION else TRUNCATION)
    /\ (Z.of_nat (length actions) = Z.max 1 (max_steps self) ->
        forall action,
        in_int32 action ->
        exists timestep',
          Room_step self timestep action actions_set = Ok timestep'
          /\ Room_reset random_split room self
               (components.key (state timestep)) = Ok timestep'
          /\ t timestep' = 0
          /\ step_type timestep' = StepType_value TRANSITION).
Proof.
  intros Hmax Hnever Hne Hact Hobs Hactions Hreset Hlen.
  pose proof (Room_reset_inv _ _ _ _ _ Hreset) as (g & Hroom & Hts0).
  assert (t timestep0 = 0 /\ step_type timestep0 = 0) as [Ht0 Htype0]
    by (by rewrite Hts0).
  destruct (decide (Z.of_nat (length actions) < Z.max 1 (max_steps self)))
    as [Hshort|Hfull].
  - destruct (steps_running self actions_set key timestep0 timestep0 actions)
      as (ts & Hsteps & Ht & Htype & _); try done; try lia.
    { destruct actions; [by left|right]. cbn [length] in *. lia. }
    exists ts. split; [done|]. split; [lia|].
    rewrite (proj2 (Z.ltb_lt _ _)) by done. split; [done|]. lia.
  - destruct (exists_last (l := actions)) as (init & a & ->).
    { intros ->. cbn in *. lia. }
    rewrite length_app in Hlen, Hfull |- *. cbn [length] in Hlen, Hfull |- *.
    apply Forall_app in Hactions as [Hinit Ha]. rewrite Forall_singleton in Ha.
    destruct (steps_running self actions_set key timestep0 timestep0 init)
      as (ts & Hsteps & Ht & Htype & Haval); try done; try lia.
    { destruct init; [by left|right]. cbn [length] in *. lia. }
    pose proof (Room_step_returns self actions_set key timestep0 ts a
                  Hmax Hne Hact Hobs Hreset Haval Ha) as Hreturns.
    pose proof Hreturns as (r & s & _ & Hs & _).
    assert (Room_step self ts a actions_set = Ok s) as Hstep.
    { rewrite (step_returns_Ok _ _ _ _ Hreturns), Htype. exact Hs. }
    assert (int32_min <= t ts < int32_max) as Hrange.
    { unfold in_int32, int32_min, int32_max in *. lia. }
    destruct (Room_step_running_inv _ _ _ _ _ Htype Hrange Hstep)
      as (Ht1 & Htype1 & _ & branch & Hbranch & Hstate1).
    rewrite Hnever in Htype1.
    rewrite (proj2 (Z.leb_le _ _)) in Htype1 by lia. cbn in Htype1.
    exists s. rewrite steps_app, Hsteps.
    cbn [episode.steps mbind result_bind]. rewrite Hstep.
    cbn [mbind result_bind].
    split; [done|]. split; [lia|].
    rewrite (proj2 (Z.ltb_ge _ _)) by lia. split; [done|].
    intros _ action Haction.
    assert (aval (state s) = aval (state timestep0)) as Haval1
      by (rewrite Hstate1, Hact; done).
    pose proof (Room_step_returns self actions_set key timestep0 s action
                  Hmax Hne Hact Hobs Hreset Haval1 Haction) as Hended.
    pose proof Hended as (r' & s' & Hr' & _ & _).
    exists r'. rewrite (step_returns_Ok _ _ _ _ Hended), Htype1.
    split; [exact Hr'|]. split; [exact Hr'|].
    by apply Room_reset_inv in Hr' as (g' & _ & ->).
Qed.

End Room_episode.

Lemma reachable_counter_bounded_witness :
  exists timestep0 timestep1 timestep2,
    environments_room.Room_reset (Any := Z) example.random_split
      (grid.room example.WALL) example.Room_5x5 42 = Ok timestep0
    /\ step (E_class := environments_room.Room_class example.random_split
                          (grid.room example.WALL))
         example.Room_5x5 timestep0 1 example.ACTIONS = Ok timestep1
    /\ step (E_class := environments_room.Room_class example.random_split
                          (grid.room example.WALL))
         example.Room_5x5 timestep1 0 example.ACTIONS = Ok timestep2
    /\ 0 <= t timestep1 <= 100
    /\ 0 <= step_type timestep1 <= 2
    /\ (step_type timestep1 = 0 -> t timestep1 = 0 \/ t timestep1 < 100)
    /\ t timestep2 = t timestep1 + 1.
Proof.
  destruct (environments_room.Room_reset (Any := Z) example.random_split
              (grid.room example.WALL) example.Room_5x5 42)
    as [ts0|e] eqn:Hreset; [|discriminate Hreset].
  destruct (step (E_class := environments_room.Room_class example.random_split
                               (grid.room example.WALL))
              example.Room_5x5 ts0 1 example.ACTIONS)
    as [ts1|e] eqn:Hstep1;
    [|injection Hreset as <-; vm_compute in Hstep1; discriminate Hstep1].
  destruct (step (E_class := environments_room.Room_class example.random_split
                               (grid.room example.WALL))
              example.Room_5x5 ts1 0 example.ACTIONS)
    as [ts2|e] eqn:Hstep2;
    [|injection Hreset as <-; vm_compute in Hstep1;
      injection Hstep1 as <-; vm_compute in Hstep2; discriminate Hstep2].
  destruct (reachable_counter_bounded (Any := Z) example.random_split
              (grid.room example.WALL) example.Room_5x5 example.ACTIONS ts1)
    as (Ht & Htype & Hrun & Hnext).
  - eapply episode.reachable_step; [|exact Hstep1].
    eapply episode.reachable_reset. exact Hreset.
  - exists ts0, ts1, ts2. split; [reflexivity|]. split; [exact Hstep1|].
    split; [exact Hstep2|]. split; [exact Ht|]. split; [exact Htype|].
    split; [exact Hrun|]. apply (Hnext 0 ts2); [|exact Hstep2].
    injection Hreset as <-. vm_compute in Hstep1. injection Hstep1 as <-.
    reflexivity.
Defined.

Lemma episode_length_witness :
  exists timestep0 timestep,
    environments_room.Room_reset (Any := Z) example.random_split
      (grid.room example.WALL) example.Room_5x5 42 = Ok timestep0
    /\ episode.steps
         (E_class := environments_room.Room_class example.random_split
                       (grid.room example.WALL))
         example.Room_5x5 example.ACTIONS timestep0 [1; 0; 1] = Ok timestep
    /\ t timestep = 3
    /\ step_type timestep = StepType_value TRANSITION.
Proof.
  destruct (environments_room.Room_reset (Any := Z) example.random_split
              (grid.room example.WALL) example.Room_5x5 42)
    as [ts0|e] eqn:Hreset; [|discriminate Hreset].
  destruct (episode_length (Any := Z) example.random_split
              (grid.room example.WALL) example.Room_5x5 example.ACTIONS 42
              ts0 [1; 0; 1])
    as (ts & Hsteps & Ht & Htype & _).
  - vm_compute. split; discriminate.
  - reflexivity.
  - discriminate.
  - intros f s Hf Hs. apply example_ACTIONS_keep_types; [done|].
    injection Hreset as <-. cbn in Hs. unfold State_aval in Hs.
    by injection Hs.
  - intros x y Hxy. cbn in Hxy |- *. unfold State_aval in Hxy.
    congruence.
  - repeat (apply Forall_cons_2; [vm_compute; split; discriminate|]).
    apply Forall_nil_2.
  - exact Hreset.
  - cbn. lia.
  - exists ts0, ts. split; [reflexivity|]. split; [exact Hsteps|].
    split; [exact Ht|exact Htype].
Defined.

(** ** The id of an observation *)

Lemma weak_in_range (k : Z) : in_int32 k -> jnp.weak k = Some k.
Proof.
  unfold in_int32, jnp.weak. intros [Hlo Hhi].
  by rewrite (proj2 (Z.leb_le _ _) Hlo), (proj2 (Z.leb_le _ _) Hhi).
Qed.

Lemma sub_int_scalar (x k : Z) :
  in_int32 k -> in_int32 (x - k) ->
  jnp.sub_int (Scalar x) k = Some (Scalar (x - k)).
Proof.
  intros Hk Hx. unfold jnp.sub_int. rewrite weak_in_range by done. cbn.
  by rewrite wrap32_in_range.
Qed.

Lemma mul_int_scalar (x k : Z) :
  in_int32 k -> in_int32 (x * k) ->
  jnp.mul_int (Scalar x) k = Some (Scalar (x * k)).
Proof.
  intros Hk Hx. unfold jnp.mul_int. rewrite weak_in_range by done. cbn.
  by rewrite wrap32_in_range.
Qed.

Lemma add_scalar (x y : Z) :
  in_int32 (x + y) -> jnp.add (Scalar x) (Scalar y) = Some (Scalar (x + y)).
Proof.
  intros Hxy. unfold jnp.add, jnp.map. by rewrite wrap32_in_range.
Qed.

Lemma add_scalar_vec (x y : Z) :
  in_int32 (x + y) -> jnp.add (Scalar x) (Vec [y]) = Some (Vec [x + y]).
Proof.
  intros Hxy. unfold jnp.add, jnp.map. cbn [fmap list_fmap].
  by rewrite wrap32_in_range.
Qed.

(** Adding an array of one entry, of rank 0 or 1, and reading the result
    after [expand_dims]. *)
Lemma add_one_entry (x d : Z) (direction : Array Z) :
  direction = Scalar d \/ direction = Vec [d] ->
  in_int32 (x + d) ->
  exists sum out,
    jnp.add (Scalar x) direction = Some sum
    /\ jnp.expand_dims_last sum = Some out
    /\ jnp.entries out = [x + d].
Proof.
  intros [-> | ->] Hxd; unfold jnp.add, jnp.map; cbn [fmap list_fmap];
    rewrite wrap32_in_range by done; do 2 eexists; done.
Qed.

Lemma radix_injective (M a b a' b' : Z) :
  0 <= b < M -> 0 <= b' < M ->
  a * M + b = a' * M + b' -> a = a' /\ b = b'.
Proof. intros Hb Hb' Heq. assert (a = a') by nia. subst. lia. Qed.

Lemma cell_index_range (R C r c : Z) :
  1 <= r <= R - 2 -> 1 <= c <= C - 2 ->
  0 <= (r - 1) * (C - 2) + (c - 1) < (R - 2) * (C - 2).
Proof. intros Hr Hc. nia. Qed.

Ltac in_range_32 := unfold in_int32, int32_min, int32_max; lia.

(** Runs the six operations that turn the coordinates [r], [c] of a
    position into the index of its cell. *)
Ltac cell_index r c :=
  change (jnp.getitem (Vec [r; c]) 0) with (Some (Scalar r));
  change (jnp.getitem (Vec [r; c]) 1) with (Some (Scalar c));
  cbn [mbind option_bind];
  rewrite (sub_int_scalar r 1) by in_range_32; cbn [mbind option_bind];
  rewrite (mul_int_scalar (r - 1)) by in_range_32; cbn [mbind option_bind];
  rewrite (sub_int_scalar c 1) by in_range_32; cbn [mbind option_bind];
  rewrite (add_scalar _ (c - 1)) by in_range_32; cbn [mbind option_bind].

Section unique_id_properties.

Context {KeyArray Observation RenderingCache : Type}.

Abbreviation State := (environments_empty.State KeyArray RenderingCache).
Abbreviation Room := (environments_empty.Room (KeyArray := KeyArray) (Observation := Observation) (RenderingCache := RenderingCache)).
Abbreviation Room_super := environments_empty.Room_super.

Variable get_player : State -> environments_empty.Player.
Variable get_entity : State -> string -> environments_empty.Goal.

Abbreviation unique_id := (unique_id_obs.unique_id get_player get_entity).

(** The Player of [s] stands on row [r], column [c] and looks in
    direction [d]. *)
Abbreviation player_is s r c d :=
  (environments_empty.Player_position (get_player s) = Vec [r; c]
   /\ (environments_empty.Player_direction (get_player s) = Scalar d
       \/ environments_empty.Player_direction (get_player s) = Vec [d])).

Lemma unique_id_fixed_eval (self : Room) (s : State) (R C r c d : Z) :
  environments_empty.random_start self = false ->
  jnp.shape (environments_empty.grid s) = (R, C) ->
  player_is s r c d ->
  1 <= r <= R - 2 -> 1 <= c <= C - 2 -> 0 <= d <= 3 ->
  4 * ((R - 2) * (C - 2)) <= 2 ^ 31 ->
  exists out,
    unique_id self s = Some out
    /\ jnp.entries out = [((r - 1) * (C - 2) + (c - 1)) * 4 + d].
Proof.
  intros Hstart Hshape [Hpos Hdir] Hr Hc Hd Hfit.
  pose proof (cell_index_range R C r c Hr Hc) as Hidx.
  assert (C - 2 <= (R - 2) * (C - 2)) as HCN by nia.
  assert (R - 2 <= (R - 2) * (C - 2)) as HRN by nia.
  assert (0 <= (r - 1) * (C - 2) <= (r - 1) * (C - 2) + (c - 1)) as Hmul
    by nia.
  unfold unique_id_obs.unique_id. rewrite Hshape, Hstart, Hpos.
  cell_index r c.
  set (index := (r - 1) * (C - 2) + (c - 1)) in *.
  rewrite mul_int_scalar by in_range_32. cbn [mbind option_bind].
  destruct (add_one_entry (index * 4) d _ Hdir)
    as (sum & out & Hsum & Hout & Hentries); [in_range_32|].
  rewrite Hsum. cbn [mbind option_bind]. by exists out.
Qed.

Lemma unique_id_random_eval (self : Room) (s : State)
    (R C gr gc r c d : Z) (rest : list (list Z)) :
  environments_empty.random_start self = true ->
  jnp.shape (environments_empty.grid s) = (R, C) ->
  environments_empty.Goal_position (get_entity s "goal")
    = Mat ([gr; gc] :: rest) ->
  player_is s r c d ->
  1 <= gr <= R - 2 -> 1 <= gc <= C - 2 ->
  1 <= r <= R - 2 -> 1 <= c <= C - 2 -> 0 <= d <= 3 ->
  4 * ((R - 2) * (C - 2)) * ((R - 2) * (C - 2)) <= 2 ^ 31 ->
  exists out,
    unique_id self s = Some out
    /\ jnp.entries out =
         [ ((gr - 1) * (C - 2) + (gc - 1)) * ((R - 2) * (C - 2) * 4)
           + (((r - 1) * (C - 2) + (c - 1)) * 4 + d) ].
Proof.
  intros Hstart Hshape Hgoal [Hpos Hdir] Hgr Hgc Hr Hc Hd Hfit.
  pose proof (cell_index_range R C r c Hr Hc) as Hidx.
  pose proof (cell_index_range R C gr gc Hgr Hgc) as Hgidx.
  set (N := (R - 2) * (C - 2)) in *.
  assert (C - 2 <= N) as HCN by (unfold N; nia).
  assert (R - 2 <= N) as HRN by (unfold N; nia).
  assert (1 <= N) as HN by lia.
  assert (4 * N <= 4 * N * N) as HNN by nia.
  assert (0 <= (r - 1) * (C - 2) <= (r - 1) * (C - 2) + (c - 1)) as Hmul
    by nia.
  assert (0 <= (gr - 1) * (C - 2) <= (gr - 1) * (C - 2) + (gc - 1)) as Hgmul
    by nia.
  unfold unique_id_obs.unique_id. rewrite Hshape, Hstart, Hgoal, Hpos.
  change (jnp.getitem (Mat ([gr; gc] :: rest)) 0) with (Some (Vec [gr; gc])).
  cbn [mbind option_bind].
  cell_index gr gc. cell_index r c.
  set (gindex := (gr - 1) * (C - 2) + (gc - 1)) in *.
  set (index := (r - 1) * (C - 2) + (c - 1)) in *.
  assert (0 <= gindex * (N * 4) <= (N - 1) * (N * 4)) as Hscaled by nia.
  rewrite (mul_int_scalar index 4) by in_range_32. cbn [mbind option_bind].
  change ((R - 2) * (C - 2) * 4) with (N * 4).
  destruct Hdir as [Hdir|Hdir]; rewrite Hdir.
  - rewrite (add_scalar (index * 4) d) by in_range_32.
    cbn [mbind option_bind].
    rewrite (mul_int_scalar gindex) by in_range_32. cbn [mbind option_bind].
    rewrite add_scalar by in_range_32. cbn [mbind option_bind].
    eexists. split; reflexivity.
  - rewrite (add_scalar_vec (index * 4) d) by in_range_32.
    cbn [mbind option_bind].
    rewrite (mul_int_scalar gindex) by in_range_32. cbn [mbind option_bind].
    rewrite add_scalar_vec by in_range_32. cbn [mbind option_bind].
    eexists. split; reflexivity.
Qed.

(** X5: without random start, [unique_id] numbers the states of the Player.  On
    a grid of the shape of the environment, two Players inside the walls,
    each looking in one of the four directions, get ids in
    [0, get_n_unique_states()), and get the same id only when they stand on
    the same cell and look in the same direction.  The number of states
    has to fit in 32 bits. *)
Theorem unique_id_fixed_injective (self : Room) (s1 s2 : State)
    (r1 c1 d1 r2 c2 d2 : Z) :
  environments_empty.random_start self = false ->
  jnp.shape (environments_empty.grid s1)
    = (height (Room_super self), width (Room_super self)) ->
  jnp.shape (environments_empty.grid s2)
    = (height (Room_super self), width (Room_super self)) ->
  player_is s1 r1 c1 d1 ->
  player_is s2 r2 c2 d2 ->
  1 <= r1 <= height (Room_super self) - 2 ->
  1 <= c1 <= width (Room_super self) - 2 -> 0 <= d1 <= 3 ->
  1 <= r2 <= height (Room_super self) - 2 ->
  1 <= c2 <= width (Room_super self) - 2 -> 0 <= d2 <= 3 ->
  environments_empty.Room_get_n_unique_states self <= 2 ^ 31 ->
  exists out1 out2 id1 id2,
    unique_id self s1 = Some out1 /\ jnp.entries out1 = [id1]
    /\ unique_id self s2 = Some out2 /\ jnp.entries out2 = [id2]
    /\ 0 <= id1 < environments_empty.Room_get_n_unique_states self
    /\ 0 <= id2 < environments_empty.Room_get_n_unique_states self
    /\ (id1 = id2 <-> r1 = r2 /\ c1 = c2 /\ d1 = d2).
Proof.
  intros Hstart Hshape1 Hshape2 Hp1 Hp2 Hr1 Hc1 Hd1 Hr2 Hc2 Hd2 Hfit.
  unfold environments_empty.Room_get_n_unique_states in *.
  rewrite Hstart in *.
  set (R := height (Room_super self)) in *.
  set (C := width (Room_super self)) in *.
  destruct (unique_id_fixed_eval self s1 R C r1 c1 d1)
    as (out1 & Hout1 & Hid1); try done; [lia|].
  destruct (unique_id_fixed_eval self s2 R C r2 c2 d2)
    as (out2 & Hout2 & Hid2); try done; [lia|].
  pose proof (cell_index_range R C r1 c1 Hr1 Hc1) as Hidx1.
  pose proof (cell_index_range R C r2 c2 Hr2 Hc2) as Hidx2.
  exists out1, out2. do 2 eexists.
  split; [exact Hout1|]. split; [exact Hid1|].
  split; [exact Hout2|]. split; [exact Hid2|].
  split; [lia|]. split; [lia|]. split.
  - intros Heq.
    apply radix_injective in Heq as [Hidx ->]; [|lia..].
    replace ((r1 - 1) * (C - 2) + (c1 - 1))
      with ((r1 - 1) * (C - 2) + (c1 - 1)) in Hidx by done.
    apply radix_injective in Hidx; lia.
  - by intros (-> & -> & ->).
Qed.

(** X6: without random start, every id below [get_n_unique_states()] is the id
    of a state of the Player: a cell inside the walls and a direction. *)
Theorem unique_id_fixed_onto (self : Room) (id : Z) :
  environments_empty.random_start self = false ->
  3 <= height (Room_super self) -> 3 <= width (Room_super self) ->
  environments_empty.Room_get_n_unique_states self <= 2 ^ 31 ->
  0 <= id < environments_empty.Room_get_n_unique_states self ->
  exists r c d,
    1 <= r <= height (Room_super self) - 2
    /\ 1 <= c <= width (Room_super self) - 2
    /\ 0 <= d <= 3
    /\ forall s,
         jnp.shape (environments_empty.grid s)
           = (height (Room_super self), width (Room_super self)) ->
         player_is s r c d ->
         exists out, unique_id self s = Some out /\ jnp.entries out = [id].
Proof.
  intros Hstart Hh Hw Hfit Hid.
  unfold environments_empty.Room_get_n_unique_states in *.
  rewrite Hstart in *.
  set (R := height (Room_super self)) in *.
  set (C := width (Room_super self)) in *.
  set (index := id / 4).
  assert (0 <= index < (R - 2) * (C - 2)) as Hindex.
  { unfold index. split; [apply Z.div_pos; lia|].
    apply Z.div_lt_upper_bound; lia. }
  pose proof (Z.div_mod id 4 ltac:(lia)) as Hid4.
  pose proof (Z.mod_pos_bound id 4 ltac:(lia)) as Hd.
  pose proof (Z.div_mod index (C - 2) ltac:(lia)) as Hrc.
  pose proof (Z.mod_pos_bound index (C - 2) ltac:(lia)) as Hc.
  assert (0 <= index / (C - 2) < R - 2) as Hr.
  { split; [apply Z.div_pos; lia|].
    apply Z.div_lt_upper_bound; lia. }
  exists (index / (C - 2) + 1), (index mod (C - 2) + 1), (id mod 4).
  split; [lia|]. split; [lia|]. split; [lia|].
  intros s Hshape Hplayer.
  destruct (unique_id_fixed_eval self s R C _ _ _ Hstart Hshape Hplayer)
    as (out & Hout & Hentries); try lia.
  exists out. split; [done|]. rewrite Hentries. f_equal.
  fold index in Hid4. lia.
Qed.

(** X7: with random start, [unique_id] numbers the pairs of a cell of the Goal
    and a state of the Player: ids stay in [0, get_n_unique_states()) and
    two States get the same id only when Goal, Player and direction are
    the same.  The number of states has to fit in 32 bits. *)
Theorem unique_id_random_injective (self : Room) (s1 s2 : State)
    (gr1 gc1 r1 c1 d1 gr2 gc2 r2 c2 d2 : Z) (rest1 rest2 : list (list Z)) :
  environments_empty.random_start self = true ->
  jnp.shape (environments_empty.grid s1)
    = (height (Room_super self), width (Room_super self)) ->
  jnp.shape (environments_empty.grid s2)
    = (height (Room_super self), width (Room_super self)) ->
  environments_empty.Goal_position (get_entity s1 "goal")
    = Mat ([gr1; gc1] :: rest1) ->
  environments_empty.Goal_position (get_entity s2 "goal")
    = Mat ([gr2; gc2] :: rest2) ->
  player_is s1 r1 c1 d1 ->
  player_is s2 r2 c2 d2 ->
  1 <= gr1 <= height (Room_super self) - 2 ->
  1 <= gc1 <= width (Room_super self) - 2 ->
  1 <= r1 <= height (Room_super self) - 2 ->
  1 <= c1 <= width (Room_super self) - 2 -> 0 <= d1 <= 3 ->
  1 <= gr2 <= height (Room_super self) - 2 ->
  1 <= gc2 <= width (Room_super self) - 2 ->
  1 <= r2 <= height (Room_super self) - 2 ->
  1 <= c2 <= width (Room_super self) - 2 -> 0 <= d2 <= 3 ->
  environments_empty.Room_get_n_unique_states self <= 2 ^ 31 ->
  exists out1 out2 id1 id2,
    unique_id self s1 = Some out1 /\ jnp.entries out1 = [id1]
    /\ unique_id self s2 = Some out2 /\ jnp.entries out2 = [id2]
    /\ 0 <= id1 < environments_empty.Room_get_n_unique_states self
    /\ 0 <= id2 < environments_empty.Room_get_n_unique_states self
    /\ (id1 = id2 <->
          gr1 = gr2 /\ gc1 = gc2 /\ r1 = r2 /\ c1 = c2 /\ d1 = d2).
Proof.
  intros Hstart Hshape1 Hshape2 Hg1 Hg2 Hp1 Hp2
    Hgr1 Hgc1 Hr1 Hc1 Hd1 Hgr2 Hgc2 Hr2 Hc2 Hd2 Hfit.
  unfold environments_empty.Room_get_n_unique_states in *.
  rewrite Hstart in *.
  set (R := height (Room_super self)) in *.
  set (C := width (Room_super self)) in *.
  destruct (unique_id_random_eval self s1 R C gr1 gc1 r1 c1 d1 rest1)
    as (out1 & Hout1 & Hid1); try done; [lia|].
  destruct (unique_id_random_eval self s2 R C gr2 gc2 r2 c2 d2 rest2)
    as (out2 & Hout2 & Hid2); try done; [lia|].
  pose proof (cell_index_range R C r1 c1 Hr1 Hc1) as Hidx1.
  pose proof (cell_index_range R C r2 c2 Hr2 Hc2) as Hidx2.
  pose proof (cell_index_range R C gr1 gc1 Hgr1 Hgc1) as Hgidx1.
  pose proof (cell_index_range R C gr2 gc2 Hgr2 Hgc2) as Hgidx2.
  exists out1, out2. do 2 eexists.
  split; [exact Hout1|]. split; [exact Hid1|].
  split; [exact Hout2|]. split; [exact Hid2|].
  set (N := (R - 2) * (C - 2)) in *.
  split; [nia|]. split; [nia|]. split.
  - intros Heq.
    apply radix_injective in Heq as [Hg Hp]; [|lia..].
    apply radix_injective in Hg; [|lia..].
    apply radix_injective in Hp as [Hp ->]; [|lia..].
    apply radix_injective in Hp; lia.
  - by intros (-> & -> & -> & -> & ->).
Qed.

End unique_id_properties.

Lemma unique_id_fixed_injective_witness :
  exists out1 out2,
    unique_id_obs.unique_id example_obs.get_player example_obs.get_entity
      example.Empty_5x5 (example_obs.a_state 1 1 0 3 3) = Some out1
    /\ unique_id_obs.unique_id example_obs.get_player example_obs.get_entity
         example.Empty_5x5 (example_obs.a_state 2 3 1 3 3) = Some out2
    /\ jnp.entries out1 = [0]
    /\ jnp.entries out2 = [21].
Proof.
  destruct (unique_id_fixed_injective (Observation := Grid)
              example_obs.get_player example_obs.get_entity
              example.Empty_5x5
              (example_obs.a_state 1 1 0 3 3) (example_obs.a_state 2 3 1 3 3)
              1 1 0 2 3 1)
    as (out1 & out2 & id1 & id2 & Hout1 & Hid1 & Hout2 & Hid2 & _);
    try (cbn; lia); try reflexivity; try (split; [reflexivity|by left]).
  exists out1, out2. split; [exact Hout1|]. split; [exact Hout2|].
  vm_compute in Hout1, Hout2.
  injection Hout1 as <-. injection Hout2 as <-. split; reflexivity.
Defined.

Lemma unique_id_fixed_onto_witness :
  exists r c d,
    (forall s : environments_empty.State Z unit,
       jnp.shape (environments_empty.grid s) = (5, 5) ->
       environments_empty.Player_position (example_obs.get_player s)
         = Vec [r; c]
       /\ (environments_empty.Player_direction (example_obs.get_player s)
             = Scalar d
           \/ environments_empty.Player_direction (example_obs.get_player s)
                = Vec [d]) ->
       exists out,
         unique_id_obs.unique_id example_obs.get_player example_obs.get_entity
           example.Empty_5x5 s = Some out
         /\ jnp.entries out = [35]).
Proof.
  destruct (unique_id_fixed_onto (Observation := Grid)
              example_obs.get_player example_obs.get_entity
              example.Empty_5x5 35)
    as (r & c & d & _ & _ & _ & Hs);
    try (cbn; lia); try reflexivity.
  exists r, c, d. exact Hs.
Defined.

Lemma unique_id_random_injective_witness :
  exists out1 out2,
    unique_id_obs.unique_id example_obs.get_player example_obs.get_entity
      example_obs.Random_5x5 (example_obs.a_state 1 1 0 3 3) = Some out1
    /\ unique_id_obs.unique_id example_obs.get_player example_obs.get_entity
         example_obs.Random_5x5 (example_obs.a_state 1 1 0 3 2) = Some out2
    /\ jnp.entries out1 = [288]
    /\ jnp.entries out2 = [252].
Proof.
  destruct (unique_id_random_injective (Observation := Grid)
              example_obs.get_player example_obs.get_entity
              example_obs.Random_5x5
              (example_obs.a_state 1 1 0 3 3) (example_obs.a_state 1 1 0 3 2)
              3 3 1 1 0 3 2 1 1 0 [] [])
    as (out1 & out2 & id1 & id2 & Hout1 & Hid1 & Hout2 & Hid2 & _);
    try (cbn; lia); try reflexivity; try (split; [reflexivity|by left]).
  exists out1, out2. split; [exact Hout1|]. split; [exact Hout2|].
  vm_compute in Hout1, Hout2.
  injection Hout1 as <-. injection Hout2 as <-. split; reflexivity.
Defined.

(** ** The fixed start of [empty.py] *)

Section fixed_start.

Context {KeyArray Observation Any RenderingCache : Type}.
Variable random_split : KeyArray -> nat -> nat -> KeyArray.
Variable room : Z -> Z -> result Grid.
Variable random_positions : KeyArray -> Grid -> nat -> result (nat -> Array Z).
Variable random_directions : KeyArray -> nat -> Array Z.
Variable RenderingCache_init : Grid -> RenderingCache.
Variable EMPTY_POCKET_ID : Array Z.

Abbreviation Empty := (environments_empty.Room (KeyArray := KeyArray) (Observation := Observation) (RenderingCache := RenderingCache)).
Abbreviation Empty_super := environments_empty.Room_super.
Abbreviation Empty__reset :=
  (environments_empty.Room__reset (Any := Any) random_split room
     random_positions random_directions RenderingCache_init EMPTY_POCKET_ID).

(** X8: with the fixed start, the Player is put on the cell of the Goal exactly
    in the 3x3 room, whose only inner cell is (1, 1); in every other room
    the two stand on different cells. *)
Theorem fixed_start_on_goal (self : Empty) key cache timestep :
  environments_empty.random_start self = false ->
  environments_empty.Room__reset (Any := Any) random_split room
    random_positions random_directions RenderingCache_init EMPTY_POCKET_ID
    self key cache = Ok timestep ->
  exists player goal,
    environments_empty.entities (state timestep) =
      [ (environments_empty.PLAYER, [environments_empty.APlayer player]);
        (environments_empty.GOAL, [environments_empty.AGoal goal]) ]
    /\ (environments_empty.Player_position player =
        environments_empty.Goal_position goal
        <-> height (Empty_super self) = 3 /\ width (Empty_super self) = 3).
Proof.
  intros Hstart Hreset.
  apply Empty__reset_inv in Hreset
    as (g & pp & gp & d & _ & Hplace & _ & _ & _ & _ & _ & _ & ->).
  rewrite Hstart in Hplace. destruct Hplace as (-> & -> & ->).
  do 2 eexists. split; [reflexivity|]. cbn. split.
  - intros [= ? ?]. lia.
  - intros [-> ->]. reflexivity.
Qed.

(** X9: with the fixed start, neither the seed nor the cache that is passed
    decides where anything is: two resets of one environment fail
    together, or return States with the same grid and the same entities.
    The seed only gives the stored key, the first of the three tokens split
    from it, and a cache that is passed is stored as it is, where the one
    of the grid is built otherwise. *)
Theorem fixed_start_seed_independent (self : Empty) key1 key2 cache1 cache2 :
  environments_empty.random_start self = false ->
  match
    environments_empty.Room__reset (Any := Any) random_split room
      random_positions random_directions RenderingCache_init EMPTY_POCKET_ID
      self key1 cache1,
    environments_empty.Room__reset (Any := Any) random_split room
      random_positions random_directions RenderingCache_init EMPTY_POCKET_ID
      self key2 cache2
  with
  | Ok timestep1, Ok timestep2 =>
      environments_empty.grid (state timestep1) =
        environments_empty.grid (state timestep2)
      /\ environments_empty.entities (state timestep1) =
           environments_empty.entities (state timestep2)
      /\ environments_empty.key (state timestep1) = random_split key1 3 0
      /\ environments_empty.key (state timestep2) = random_split key2 3 0
      /\ environments_empty.cache (state timestep1) =
           default
             (RenderingCache_init (environments_empty.grid (state timestep1)))
             cache1
      /\ environments_empty.cache (state timestep2) =
           default
             (RenderingCache_init (environments_empty.grid (state timestep2)))
             cache2
  | Err e1, Err e2 => e1 = e2
  | _, _ => False
  end.
Proof.
  intros Hstart. unfold environments_empty.Room__reset. rewrite Hstart.
  destruct (room _ _) as [g|e]; cbn; done.
Qed.

End fixed_start.

Lemma fixed_start_on_goal_witness :
  exists timestep player goal,
    environments_empty.Room__reset (Any := Z) example.random_split
      (grid.room example.WALL) example.random_positions
      example.random_directions example.RenderingCache_init
      example.EMPTY_POCKET_ID example.Empty_5x5 0 None = Ok timestep
    /\ environments_empty.entities (state timestep) =
         [ (environments_empty.PLAYER, [environments_empty.APlayer player]);
           (environments_empty.GOAL, [environments_empty.AGoal goal]) ]
    /\ environments_empty.Player_position player <>
       environments_empty.Goal_position goal.
Proof.
  destruct (environments_empty.Room__reset (Any := Z) example.random_split
              (grid.room example.WALL) example.random_positions
              example.random_directions example.RenderingCache_init
              example.EMPTY_POCKET_ID example.Empty_5x5 0 None)
    as [ts|e] eqn:Hreset; [|discriminate Hreset].
  destruct (fixed_start_on_goal (Any := Z) example.random_split
              (grid.room example.WALL) example.random_positions
              example.random_directions example.RenderingCache_init
              example.EMPTY_POCKET_ID example.Empty_5x5 0 None ts
              eq_refl Hreset)
    as (player & goal & Hentities & Hiff).
  exists ts, player, goal. split; [reflexivity|]. split; [exact Hentities|].
  intros Heq. apply Hiff in Heq as [Hh _]. discriminate Hh.
Defined.

Lemma fixed_start_seed_independent_witness :
  exists timestep1 timestep2,
    environments_empty.Room__reset (Any := Z) example.random_split
      (grid.room example.WALL) example.random_positions
      example.random_directions example.RenderingCache_init
      example.EMPTY_POCKET_ID example.Empty_5x5 1 None = Ok timestep1
    /\ environments_empty.Room__reset (Any := Z) example.random_split
         (grid.room example.WALL) example.random_positions
         example.random_directions example.RenderingCache_init
         example.EMPTY_POCKET_ID example.Empty_5x5 2 (Some tt) = Ok timestep2
    /\ environments_empty.entities (state timestep1) =
         environments_empty.entities (state timestep2).
Proof.
  pose proof (fixed_start_seed_independent (Any := Z) example.random_split
                (grid.room example.WALL) example.random_positions
                example.random_directions example.RenderingCache_init
                example.EMPTY_POCKET_ID example.Empty_5x5 1 2 None (Some tt)
                eq_refl) as Hsame.
  destruct (environments_empty.Room__reset (Any := Z) example.random_split
              (grid.room example.WALL) example.random_positions
              example.random_directions example.RenderingCache_init
              example.EMPTY_POCKET_ID example.Empty_5x5 1 None)
    as [ts1|e1] eqn:Hreset1; [|discriminate Hreset1].
  destruct (environments_empty.Room__reset (Any := Z) example.random_split
              (grid.room example.WALL) example.random_positions
              example.random_directions example.RenderingCache_init
              example.EMPTY_POCKET_ID example.Empty_5x5 2 (Some tt))
    as [ts2|e2] eqn:Hreset2; [|discriminate Hreset2].
  exists ts1, ts2. split; [reflexivity|]. split; [reflexivity|].
  by destruct Hsame as (_ & Hentities & _).
Defined.
